(** * CRMint command line: stages and cloud provisioning

    A shallow embedding of [cli/utils/settings.py],
    [cli/commands/stages.py] and [cli/commands/cloud.py].

    The commands are sequential scripts that echo messages, write stage
    files, and hand shell commands to [shared.execute_command].  They are
    embedded in a state-and-error monad over the process state; the
    modules [cli.utils.shared], [cli.utils.constants] and
    [cli.utils.stage_file_template] are not part of the sources at hand and
    are the fields of the [Platform] class below.  The interpreter is
    Python 2 ([cloud.py] writes the octal literal [0755]). *)

From Stdlib Require Import ZArith String Ascii List Lia.
From stdpp Require Import base option gmap strings list fin_maps pretty.

Local Open Scope Z_scope.
Local Open Scope string_scope.

(** ** Python data *)

(** Values stored in a stage context ([dict]) or a settings constant. *)
Inductive value :=
| VStr (s : string)
| VBool (b : bool)
| VInt (z : Z).

(** The exceptions the commands can raise. *)
Inductive exn :=
| ValueError (msg : string)
| TypeError (msg : string)
| NameError (msg : string)
| KeyError (key : string)
| AttributeError (msg : string)
| IOError (path : string).

(** Outcome of a computation over a state [S]: normal return, [exit(code)]
    ([SystemExit]), or an uncaught exception. *)
Inductive result (S A : Type) :=
| Ret (a : A) (s : S)
| Exit (code : Z) (s : S)
| Raise (e : exn) (s : S).
Arguments Ret {S A} a s.
Arguments Exit {S A} code s.
Arguments Raise {S A} e s.

Definition result_state {S A} (r : result S A) : S :=
  match r with Ret _ s | Exit _ s | Raise _ s => s end.

(** One call of [shared.execute_command].  A keyword argument the caller
    leaves out is [None]. *)
Record ExecCall := mkCall {
  step_name : string;
  command : string;
  cwd : option string;
  report_empty_err : option bool;
  debug_flag : option bool;
  stream_output_in_debug : option bool;
}.

(** [execute_command(step, command, debug=debug)] *)
Definition action_call (step cmd : string) (debug : bool) : ExecCall :=
  mkCall step cmd None None (Some debug) None.

(** [execute_command(step, command, report_empty_err=False, debug=debug)] *)
Definition probe_call (step cmd : string) (debug : bool) : ExecCall :=
  mkCall step cmd None (Some false) (Some debug) None.

(** Existence probes are the calls made with [report_empty_err=False]. *)
Definition is_probe (c : ExecCall) : bool :=
  match report_empty_err c with Some false => true | _ => false end.

(** A stage object: the attributes of a loaded stage module that the
    commands read.  Each field holds the text that [str.format] substitutes
    for the attribute; [spec_version] may be missing from the module. *)
Record Stage := mkStage {
  stage_name_of : string;
  spec_version : option string;
  project_id : string;
  gae_project : string;
  gae_region : string;
  network : string;
  network_project : string;
  subnet : string;
  subnet_region : string;
  subnet_cidr : string;
  connector : string;
  connector_subnet : string;
  connector_cidr : string;
  connector_min_instances : string;
  connector_max_instances : string;
  connector_machine_type : string;
  database_project : string;
  database_instance_name : string;
  database_region : string;
  database_tier : string;
  database_ha_type : string;
  database_username : string;
  database_password : string;
  database_name : string;
}.

(** The pipeline steps of [cloud.py] (module-level functions that take
    [(stage, debug)]). *)
Inductive component :=
| downgrade_app_engine_python
| activate_services
| create_vpc
| create_subnet
| create_vpc_connector
| create_appengine
| create_service_account_key_if_needed
| grant_required_permissions
| create_mysql_instance_if_needed
| create_mysql_user_if_needed
| create_mysql_database_if_needed
| download_config_files
| install_required_packages
| display_workdir
| copy_src_to_workdir
| install_backends_dependencies
| deploy_frontend
| deploy_backends
| deploy_dispatch_rules
| download_cloud_sql_proxy
| start_cloud_sql_proxy
| prepare_flask_envars
| run_flask_db_upgrade
| run_flask_db_seeds
| stop_cloud_sql_proxy.

#[global] Instance component_eq_dec : EqDecision component.
Proof. solve_decision. Defined.

(** ** What the sources import but do not define *)

Class Platform := {
  (** the external world the shell commands act on *)
  World : Type;
  (** [shared.execute_command]: returns [(status, out, err)], or ends the
      process *)
  execute_command : ExecCall -> World -> result World (Z * string * string);
  (** [shared.get_default_stage_name()] *)
  get_default_stage_name : string;
  (** [shared.get_stage_file(stage_name)] *)
  get_stage_file : string -> string;
  (** [shared.check_stage_file(stage_name)] *)
  check_stage_file : gmap string string -> string -> bool;
  (** [shared.get_stage_object(stage_name)] *)
  get_stage_object : gmap string string -> string -> option Stage;
  (** [shared.before_hook(stage, stage_name)] *)
  before_hook : Stage -> string -> Stage;
  (** [shared.check_service_account_file(stage)]; the key file is written
      by a gcloud command, so the answer depends on the world too *)
  check_service_account_file : gmap string string -> World -> Stage -> bool;
  (** [shared.get_service_account_file(stage)] *)
  get_service_account_file : Stage -> string;
  (** [constants.STAGE_DIR], [constants.PROJECT_DIR] *)
  STAGE_DIR : string;
  PROJECT_DIR : string;
  (** [stage_file_template.STAGE_FILE_TEMPLATE.format], applied to the
      context as keyword arguments *)
  STAGE_FILE_TEMPLATE_format : gmap string value -> exn + string;
  (** whether [open(path, 'w+')] succeeds: the directory of the path exists
      and can be written to (directories are not part of the file map) *)
  open_for_writing : gmap string string -> string -> bool;
  (** [os.environ] and the outcome of [random.SystemRandom] when
      [settings] is imported *)
  environ : gmap string string;
  random_password : string;
  (** the bodies of the deploy steps, which edit YAML files and the process
      environment: they act on the files and the world *)
  deploy_step : component -> Stage -> bool ->
                gmap string string * World ->
                result (gmap string string * World) unit;
}.

(** ** Process state and the command monad *)

Section Monad.
Context `{P : Platform}.

Record state := mkState {
  fs : gmap string string;          (* files: path to content *)
  world : World;
  echoed : list string;             (* click.echo, oldest first *)
  trace : list ExecCall;            (* execute_command calls, oldest first *)
  invoked : list component;         (* steps called by a pipeline loop *)
}.

Definition M (A : Type) : Type := state -> result state A.

Definition ret {A} (a : A) : M A := fun s => Ret a s.

Definition bind {A B} (m : M A) (k : A -> M B) : M B :=
  fun s => match m s with
           | Ret a s' => k a s'
           | Exit c s' => Exit c s'
           | Raise e s' => Raise e s'
           end.

Definition exit {A} (code : Z) : M A := fun s => Exit code s.

Definition raise {A} (e : exn) : M A := fun s => Raise e s.

Definition echo (msg : string) : M unit :=
  fun s => Ret tt (mkState (fs s) (world s) (echoed s ++ [msg]) (trace s) (invoked s)).

Definition get_fs : M (gmap string string) := fun s => Ret (fs s) s.

Definition get_world : M World := fun s => Ret (world s) s.

(** [with open(path, 'w+') as fp: fp.write(content)]; [open] raises when
    the file cannot be opened *)
Definition write_file (path content : string) : M unit :=
  fun s =>
    if open_for_writing (fs s) path then
      Ret tt (mkState (<[path := content]> (fs s)) (world s) (echoed s)
                      (trace s) (invoked s))
    else Raise (IOError path) s.

(** [shared.execute_command(...)]: the command acts on the world.  The file
    map of the state holds the files that Python itself reads and opens,
    the stage files and the legacy scripts; what a command writes (a
    service account key, a working directory) is part of the world. *)
Definition exec (c : ExecCall) : M (Z * string * string) :=
  fun s =>
    let put w := mkState (fs s) w (echoed s) (trace s ++ [c]) (invoked s) in
    match execute_command c (world s) with
    | Ret r w => Ret r (put w)
    | Exit code w => Exit code (put w)
    | Raise e w => Raise e (put w)
    end.

(** [try: m  except ValueError as inst: handler(str(inst))] *)
Definition try_except_ValueError {A} (m : M A) (handler : string -> M A) : M A :=
  fun s => match m s with
           | Raise (ValueError msg) s' => handler msg s'
           | r => r
           end.

(** a pipeline loop calls [component(stage, debug=debug)] *)
Definition note_invoked (c : component) : M unit :=
  fun s => Ret tt (mkState (fs s) (world s) (echoed s) (trace s) (invoked s ++ [c])).

End Monad.

Declare Scope cmd_scope.
Delimit Scope cmd_scope with cmd.
Notation "x <- m ;; k" := (bind m (fun x => k))
  (at level 100, m at next level, right associativity) : cmd_scope.
Notation "m ;; k" := (bind m (fun _ => k))
  (at level 100, right associativity) : cmd_scope.
Local Open Scope cmd_scope.

(** ** Python string and path helpers *)

Definition dq : string := String (ascii_of_nat 34) EmptyString.
Definition newline : ascii := ascii_of_nat 10.

(** [s.split(sep)] for a one-character separator *)
Fixpoint split_on (sep : ascii) (s : string) : list string :=
  match s with
  | EmptyString => [EmptyString]
  | String c r =>
      if Ascii.eqb c sep then EmptyString :: split_on sep r
      else match split_on sep r with
           | h :: t => String c h :: t
           | [] => [String c EmptyString]
           end
  end.

(** [s.partition(sep)] for a one-character separator *)
Fixpoint partition_on (sep : ascii) (s : string) : string * string * string :=
  match s with
  | EmptyString => (EmptyString, EmptyString, EmptyString)
  | String c r =>
      if Ascii.eqb c sep then (EmptyString, String sep EmptyString, r)
      else let '(k, m, v) := partition_on sep r in (String c k, m, v)
  end.

Definition is_space (c : ascii) : bool :=
  let n := nat_of_ascii c in
  (Nat.eqb n 32 || (Nat.leb 9 n && Nat.leb n 13))%bool.

Fixpoint lstrip (s : string) : string :=
  match s with
  | EmptyString => EmptyString
  | String c r => if is_space c then lstrip r else s
  end.

(** [s.rstrip()]: the text up to the last character that is not white space *)
Fixpoint rstrip (s : string) : string :=
  match s with
  | EmptyString => EmptyString
  | String c r =>
      match rstrip r with
      | EmptyString => if is_space c then EmptyString else String c EmptyString
      | r' => String c r'
      end
  end.

(** [s.strip()] *)
Definition strip (s : string) : string := rstrip (lstrip s).

Definition startswith (p s : string) : bool := String.prefix p s.

Fixpoint last_char (s : string) : option ascii :=
  match s with
  | EmptyString => None
  | String c EmptyString => Some c
  | String _ r => last_char r
  end.

Definition is_upper (c : ascii) : bool :=
  let n := nat_of_ascii c in (Nat.leb 65 n && Nat.leb n 90)%bool.

Definition is_lower (c : ascii) : bool :=
  let n := nat_of_ascii c in (Nat.leb 97 n && Nat.leb n 122)%bool.

Definition to_upper (c : ascii) : ascii :=
  if is_lower c then ascii_of_nat (nat_of_ascii c - 32) else c.

Definition to_lower (c : ascii) : ascii :=
  if is_upper c then ascii_of_nat (nat_of_ascii c + 32) else c.

(** [s.title()] on ASCII text: a letter that follows a letter is put in
    lower case, every other letter in upper case *)
Fixpoint title_from (previous_is_cased : bool) (s : string) : string :=
  match s with
  | EmptyString => EmptyString
  | String c r =>
      String (if previous_is_cased then to_lower c else to_upper c)
             (title_from (is_upper c || is_lower c) r)
  end.

Definition title (s : string) : string := title_from false s.

(** [os.path.join(a, b)] (posixpath) *)
Definition os_path_join (a b : string) : string :=
  if startswith "/" b then b
  else match last_char a with
       | None => a +:+ b
       | Some c => if Ascii.eqb c "/"%char then a +:+ b else a +:+ "/" +:+ b
       end.

(** [os.path.exists(path)] over the file map *)
Definition os_path_exists (files : gmap string string) (path : string) : bool :=
  match files !! path with Some _ => true | None => false end.

(** [not stage_name] for a command-line option that is [None] or a string *)
Definition py_not (o : option string) : bool :=
  match o with
  | None => true
  | Some s => String.eqb s EmptyString
  end.

(** ** cli/utils/settings.py *)

(** the value a module-level name is bound to after the assignments have
    run, in their order: that of its last assignment *)
Fixpoint last_binding (name : string) (assignments : list (string * value))
    : option value :=
  match assignments with
  | [] => None
  | (n, v) :: rest =>
      match last_binding name rest with
      | Some v' => Some v'
      | None => if String.eqb n name then Some v else None
      end
  end.

(** the exception of an attribute reference [module.name] for a name the
    module does not bind *)
Definition no_attribute (name : string) : exn :=
  AttributeError ("'module' object has no attribute '" +:+ name +:+ "'").

Section Settings.
Context `{P : Platform}.

(** [os.environ.get(name, dflt)] and [os.getenv(name, dflt)] *)
Definition getenv (name dflt : string) : string :=
  match environ !! name with Some v => v | None => dflt end.

Definition DEBUG : bool := String.eqb (getenv "DEBUG" "False") "True".

Definition PROJECT : string := getenv "PROJECT" get_default_stage_name.
Definition REGION : string := getenv "REGION" "us-central1".

Definition DATABASE_NAME : string := getenv "DATABASE_NAME" "crmintapp-db".
Definition DATABASE_INSTANCE_NAME : string :=
  getenv "DATABASE_INSTANCE_NAME" DATABASE_NAME.
Definition DATABASE_USER : string := getenv "DATABASE_USER" "crmintapp".
Definition DATABASE_PASSWORD : string := getenv "DATABASE_PASSWORD" random_password.
Definition DATABASE_PUBLIC_IP : bool :=
  String.eqb (getenv "DATABASE_PUBLIC_IP" "False") "True".
Definition DATABASE_BACKUP_ENABLED : bool :=
  String.eqb (getenv "DATABASE_BACKUP_ENABLED" "False") "True".
Definition DATABASE_HA_ENABLED : bool :=
  String.eqb (getenv "DATABASE_HA_ENABLED" "True") "False".
Definition DATABASE_REGION : string := getenv "DATABASE_REGION" REGION.
Definition DATABASE_TIER : string := getenv "DATABASE_TIER" "db-g1-small".
Definition DATABASE_PROJECT : string := getenv "DATABASE_PROJECT" PROJECT.

Definition NETWORK : string := getenv "NETWORK" "crmint-vpc".
Definition SUBNET : string := getenv "SUBNET" ("crmint-" +:+ REGION +:+ "-subnet").
Definition SUBNET_CIDR : string := getenv "SUBNET_CIDR" "10.0.0.0/28".
Definition CONNECTOR : string := getenv "CONNECTOR" "crmint-vpc-serverless-connector".
Definition CONNECTOR_CIDR : string := getenv "CONNECTOR_CIDR" "10.0.0.16/28".
Definition NETWORK_SERVICE_PROJECT : string := getenv "NETWORK_SERVICE_PROJECT" PROJECT.
Definition NETWORK_HOST_PROJECT : string := getenv "NETWORK_HOST_PROJECT" PROJECT.

Definition GAE_PROJECT : string := getenv "GAE_PROJECT" PROJECT.
Definition GAE_REGION : string := getenv "GAE_REGION" REGION.
Definition GAE_APP_TITLE : string :=
  getenv "GAE_APP_TITLE"
         (title (String.concat " " (split_on "-"%char get_default_stage_name))).

(** the assignments of the module, from top to bottom ([DATABASE_REGION] is
    assigned twice).  The names of the imported modules and [BASE_DIR], the
    directory above the file, are left out: no command reads them. *)
Definition settings_assignments : list (string * value) :=
  [ ("DEBUG", VBool DEBUG);
    ("PROJECT", VStr PROJECT);
    ("REGION", VStr REGION);
    ("random_password", VStr random_password);
    ("DATABASE_NAME", VStr DATABASE_NAME);
    ("DATABASE_INSTANCE_NAME", VStr DATABASE_INSTANCE_NAME);
    ("DATABASE_USER", VStr DATABASE_USER);
    ("DATABASE_PASSWORD", VStr DATABASE_PASSWORD);
    ("DATABASE_PUBLIC_IP", VBool DATABASE_PUBLIC_IP);
    ("DATABASE_BACKUP_ENABLED", VBool DATABASE_BACKUP_ENABLED);
    ("DATABASE_HA_ENABLED", VBool DATABASE_HA_ENABLED);
    ("DATABASE_REGION", VStr DATABASE_REGION);
    ("DATABASE_TIER", VStr DATABASE_TIER);
    ("DATABASE_PROJECT", VStr DATABASE_PROJECT);
    ("DATABASE_REGION", VStr DATABASE_REGION);
    ("NETWORK", VStr NETWORK);
    ("SUBNET", VStr SUBNET);
    ("SUBNET_CIDR", VStr SUBNET_CIDR);
    ("CONNECTOR", VStr CONNECTOR);
    ("CONNECTOR_CIDR", VStr CONNECTOR_CIDR);
    ("NETWORK_SERVICE_PROJECT", VStr NETWORK_SERVICE_PROJECT);
    ("NETWORK_HOST_PROJECT", VStr NETWORK_HOST_PROJECT);
    ("GAE_PROJECT", VStr GAE_PROJECT);
    ("GAE_REGION", VStr GAE_REGION);
    ("GAE_APP_TITLE", VStr GAE_APP_TITLE) ].

(** the attribute reference [settings.name] in another module *)
Definition settings_attr (name : string) : M value :=
  match last_binding name settings_assignments with
  | Some v => ret v
  | None => raise (no_attribute name)
  end.

End Settings.

(** ** cli/commands/stages.py *)

Definition STAGE_VERSION_1_0 : string := "v1.0".
Definition STAGE_VERSION_2_0 : string := "v2.0".
Definition SUPPORTED_STAGE_VERSIONS : list string :=
  [STAGE_VERSION_1_0; STAGE_VERSION_2_0].

(** [x in SUPPORTED_STAGE_VERSIONS] *)
Definition py_in (x : string) (l : list string) : bool :=
  existsb (String.eqb x) l.

(** An argument of the [dict] call in [_default_stage_context]: a string
    formatted from the stage name, or an attribute of [settings]. *)
Inductive arg :=
| Formatted (s : string)
| Setting (name : string).

(** the keyword arguments of that call, in the order they are written *)
Definition default_stage_args (stage_name : string) : list (string * arg) :=
  [ ("service_account_file", Formatted (stage_name +:+ ".json"));
    ("project_id", Setting "PROJECT");
    ("project_region", Setting "REGION");
    ("workdir", Formatted ("/tmp/" +:+ stage_name));
    ("database_name", Setting "DATABASE_NAME");
    ("database_region", Setting "DATABASE_REGION");
    ("database_tier", Setting "DATABASE_TIER");
    ("database_username", Setting "DATABASE_USER");
    ("database_password", Setting "DATABASE_PASSWORD");
    ("database_instance_name", Setting "DATABASE_INSTANCE_NAME");
    ("database_public_ip", Setting "DATABASE_PUBLIC_IP");
    ("database_backup_enabled", Setting "DATABASE_BACKUP_ENABLED");
    ("database_ha_enabled", Setting "DATABASE_HA_ENABLED");
    ("database_project", Setting "DATABASE_PROJECT");
    ("network", Setting "NETWORK");
    ("subnet", Setting "SUBNET");
    ("subnet_region", Setting "SUBNET_REGION");
    ("subnet_cidr", Setting "SUBNET_CIDR");
    ("connector", Setting "CONNECTOR");
    ("connector_subnet", Setting "CONNECTOR_SUBNET");
    ("connector_cidr", Setting "CONNECTOR_CIDR");
    ("connector_min_instances", Setting "CONNECTOR_MIN_INSTANCES");
    ("connector_max_instances", Setting "CONNECTOR_MAX_INSTANCES");
    ("connector_machine_type", Setting "CONNECTOR_MACHINE_TYPE");
    ("network_project", Setting "NETWORK_PROJECT");
    ("gae_project", Setting "GAE_PROJECT");
    ("gae_region", Setting "GAE_REGION");
    ("gae_app_title", Setting "GAE_APP_TITLE");
    ("notification_sender_email",
       Formatted ("noreply@" +:+ stage_name +:+ ".appspotmail.com")) ].

Section Stages.
Context `{P : Platform}.

Definition eval_arg (a : arg) : M value :=
  match a with
  | Formatted s => ret (VStr s)
  | Setting name => settings_attr name
  end.

(** [dict(key=arg, ...)]: the arguments are evaluated from left to right,
    and the dict is built when all of them have a value *)
Fixpoint py_dict (args : list (string * arg)) : M (gmap string value) :=
  match args with
  | [] => ret ∅
  | (key, a) :: rest =>
      v <- eval_arg a;;
      d <- py_dict rest;;
      ret (<[key := v]> d)
  end.

Definition _default_stage_context (stage_name : string) : M (gmap string value) :=
  py_dict (default_stage_args stage_name).

Definition _create_stage_file (stage_name : string)
    (context : option (gmap string value)) : M string :=
  let filename := stage_name +:+ ".py" in
  let filepath := os_path_join STAGE_DIR filename in
  context <- match context with
             | None => _default_stage_context stage_name
             | Some c => ret c
             end;;
  match STAGE_FILE_TEMPLATE_format context with
  | inl e => raise e
  | inr content => write_file filepath content;; ret filepath
  end.

(** [getattr(stage, "spec_version", STAGE_VERSION_2_0)] *)
Definition getattr_spec_version (stage : option Stage) : string :=
  match stage with
  | Some st => match spec_version st with Some v => v | None => STAGE_VERSION_2_0 end
  | None => STAGE_VERSION_2_0
  end.

Definition unsupported_version_message (stage_version : string) : string :=
  "Unsupported spec version: '" +:+ stage_version +:+
  "'. Supported versions are ('v1.0', 'v2.0')".

Definition _detect_stage_version (stage_name : string) : M (string * string) :=
  let stage_python_filepath := get_stage_file stage_name in
  files <- get_fs;;
  if os_path_exists files stage_python_filepath then
    let stage := get_stage_object files stage_name in
    let stage_version := getattr_spec_version stage in
    if negb (py_in stage_version SUPPORTED_STAGE_VERSIONS) then
      raise (ValueError (unsupported_version_message stage_version))
    else ret (stage_version, stage_python_filepath)
  else
    let stage_bash_filepath :=
      os_path_join (os_path_join PROJECT_DIR "scripts/variables/stages")
                   (stage_name +:+ ".sh") in
    if os_path_exists files stage_bash_filepath then
      ret (STAGE_VERSION_1_0, stage_bash_filepath)
    else
      raise (ValueError ("No stage file found for name: '" +:+ stage_name +:+ "'")).

(** the loop [for line in out.split(newline): key, _, value =
    line.partition("="); old_stage[key] = value] *)
Definition parse_env_lines (out : string) : gmap string string :=
  foldl (fun old_stage line =>
           let '(key, _, value) := partition_on "="%char line in
           <[key := value]> old_stage)
        ∅ (split_on newline out).

Definition _parse_old_stage_file (stage_name : string)
    : M (option (gmap string string)) :=
  v <- _detect_stage_version stage_name;;
  let '(old_version, old_filepath) := v in
  if String.eqb old_version STAGE_VERSION_1_0 then
    let cmd := ("source " +:+ old_filepath) +:+ " && set 2>/dev/null" in
    r <- exec (mkCall "Load bash environment variables" cmd
                      (Some PROJECT_DIR) None None (Some false));;
    let '(status, out, err) := r in
    ret (Some (parse_env_lines out))
  else if String.eqb old_version STAGE_VERSION_2_0 then
    ret None
  else ret None.

Definition already_exists_message : string :=
  "This stage name already exists. You can list them all with: `$ crmint stages list`".

(** [stages create] *)
Definition create (stage_name : option string) : M unit :=
  let stage_name :=
    if py_not stage_name then get_default_stage_name
    else default EmptyString stage_name in
  files <- get_fs;;
  (if check_stage_file files stage_name then
     echo already_exists_message;; exit 1
   else ret tt);;
  filepath <- _create_stage_file stage_name None;;
  echo ("Stage file created: " +:+ filepath).

(** the helper that [cloud begin] calls *)
Definition _create (stage_name : option string) : M unit :=
  let stage_name :=
    if py_not stage_name then get_default_stage_name
    else default EmptyString stage_name in
  files <- get_fs;;
  (if check_stage_file files stage_name then
     echo already_exists_message;; ret tt
   else ret tt);;
  filepath <- _create_stage_file stage_name None;;
  echo ("Stage file created: " +:+ filepath).

(** [new_stage.update(old_context)]: the keys of [old_context] win *)
Definition dict_update (new_stage : gmap string value)
    (old_context : gmap string string) : gmap string value :=
  (VStr <$> old_context) ∪ new_stage.

(** [stages migrate] *)
Definition migrate (stage_name : option string) : M unit :=
  let stage_name :=
    if py_not stage_name then get_default_stage_name
    else default EmptyString stage_name in
  old_context <-
    try_except_ValueError
      (old_context <- _parse_old_stage_file stage_name;;
       match old_context with
       | None =>
           echo ("Already latest version detected: " +:+ stage_name);; exit 0
       | Some c => ret c
       end)
      (fun inst => echo inst;; exit 1);;
  new_stage <- _default_stage_context stage_name;;
  let new_stage := dict_update new_stage old_context in
  filepath <- _create_stage_file stage_name (Some new_stage);;
  echo ("Successfully migrated stage file to: " +:+ filepath).

End Stages.

(** ** cli/commands/cloud.py *)

Definition gcloud_command : string := "$GOOGLE_CLOUD_SDK/bin/gcloud --quiet".

(** [status == 0] on the triple that [execute_command] returns *)
Definition status_ok (r : Z * string * string) : bool := Z.eqb (fst (fst r)) 0.

Definition output_of (r : Z * string * string) : string := snd (fst r).

(** *** The command lines, as [str.format] builds them *)

Definition appengine_describe_command (stage : Stage) : string :=
  gcloud_command +:+ " app describe --verbosity critical --project=" +:+
  project_id stage +:+ " | grep -q 'codeBucket'".

Definition appengine_create_command (stage : Stage) : string :=
  gcloud_command +:+ " app create --project=" +:+ gae_project stage +:+
  " --region=" +:+ gae_region stage.

Definition vpc_describe_command (stage : Stage) : string :=
  gcloud_command +:+ " compute networks describe " +:+ network stage +:+
  " --verbosity critical --project=" +:+ network_project stage.

Definition peering_list_command (stage : Stage) : string :=
  gcloud_command +:+ " services vpc-peerings list --network=" +:+ network stage +:+
  " --verbosity critical --project=" +:+ network_project stage +:+
  " | grep " +:+ network stage +:+ "-psc".

Definition vpc_create_command (stage : Stage) : string :=
  gcloud_command +:+ " compute networks create " +:+ network stage +:+
  " --project=" +:+ network_project stage +:+
  "     --subnet-mode=custom     --bgp-routing-mode=regional     --mtu=1460".

Definition addresses_create_command (stage : Stage) : string :=
  gcloud_command +:+ " compute addresses create " +:+ network stage +:+
  "-psc       --global       --purpose=VPC_PEERING       --addresses=192.168.0.0       --prefix-length=24       --network=" +:+
  network stage.

Definition peering_update_command (stage : Stage) : string :=
  gcloud_command +:+
  " services vpc-peerings update       --service=servicenetworking.googleapis.com       --ranges=" +:+
  network stage +:+ "-psc       --network=" +:+ network stage +:+
  "       --force       --project=" +:+ network_project stage.

Definition peering_connect_command (stage : Stage) : string :=
  gcloud_command +:+
  " services vpc-peerings connect         --service=servicenetworking.googleapis.com         --ranges=" +:+
  network stage +:+ "-psc         --network=" +:+ network stage +:+
  "         --project=" +:+ network_project stage.

Definition subnet_describe_command (stage : Stage) : string :=
  gcloud_command +:+ " compute networks subnets describe " +:+ subnet stage +:+
  " --verbosity critical --project=" +:+ network_project stage +:+
  "     --region=" +:+ subnet_region stage.

Definition connector_subnet_describe_command (stage : Stage) : string :=
  gcloud_command +:+ " compute networks subnets describe " +:+
  connector_subnet stage +:+
  " --verbosity critical --project=" +:+ network_project stage +:+
  "     --region=" +:+ subnet_region stage.

Definition subnet_create_command (stage : Stage) : string :=
  gcloud_command +:+ " compute networks subnets create " +:+ subnet stage +:+
  "       --network=" +:+ network stage +:+
  "       --range=" +:+ subnet_cidr stage +:+
  "       --region=" +:+ subnet_region stage +:+
  "       --project=" +:+ network_project stage.

Definition connector_subnet_create_command (stage : Stage) : string :=
  gcloud_command +:+ " compute networks subnets create " +:+
  connector_subnet stage +:+
  "       --network=" +:+ network stage +:+
  "       --range=" +:+ connector_cidr stage +:+
  "       --region=" +:+ subnet_region stage +:+
  "       --project=" +:+ network_project stage.

Definition vpc_connector_describe_command (stage : Stage) : string :=
  gcloud_command +:+ " compute networks vpc-access connectors describe " +:+
  connector stage +:+ " --verbosity critical --project=" +:+
  network_project stage +:+ " | grep " +:+ connector stage.

Definition vpc_connector_create_command (stage : Stage) : string :=
  gcloud_command +:+ " compute networks vpc-access connectors create " +:+
  connector stage +:+
  "         --region " +:+ subnet_region stage +:+
  "         --subnet " +:+ connector_subnet stage +:+
  "         --subnet-project " +:+ network_project stage +:+
  "         --min-instances " +:+ connector_min_instances stage +:+
  "         --max-instances " +:+ connector_max_instances stage +:+
  "         --machine-type " +:+ connector_machine_type stage.

Definition service_account_key_command (stage : Stage)
    (service_account_file : string) : string :=
  gcloud_command +:+ " iam service-accounts keys create " +:+ dq +:+
  service_account_file +:+ dq +:+ "     --iam-account=" +:+ dq +:+
  project_id stage +:+ "@appspot.gserviceaccount.com" +:+ dq +:+
  "     --key-file-type='json'     --project=" +:+ project_id stage.

Definition auth_list_command : string :=
  gcloud_command +:+ " auth list     --format=" +:+ dq +:+ "value(account)" +:+ dq.

Definition owner_role_command (stage : Stage) (auth_user : string) : string :=
  gcloud_command +:+ " projects get-iam-policy " +:+ project_id stage +:+
  "     --flatten=" +:+ dq +:+ "bindings[].members" +:+ dq +:+
  "     --format=" +:+ dq +:+ "table(bindings.role)" +:+ dq +:+
  "     --filter=" +:+ dq +:+ "bindings.members:" +:+ auth_user +:+ dq +:+
  "     | grep -q 'roles/owner'".

Definition downgrade_command : string :=
  "sudo apt-get -y install google-cloud-sdk-app-engine-python=359.0.0-0 --allow-downgrades".

Definition project_number_command (stage : Stage) : string :=
  gcloud_command +:+ " projects list     --filter=" +:+ dq +:+ project_id stage +:+
  dq +:+ "     --format=" +:+ dq +:+ "value(PROJECT_NUMBER)" +:+ dq.

Definition grant_commands (stage : Stage) (project_number : string) : list string :=
  [ gcloud_command +:+ " projects add-iam-policy-binding " +:+ project_id stage +:+
    "     --member=" +:+ dq +:+ "serviceAccount:" +:+ project_number +:+
    "@cloudbuild.gserviceaccount.com" +:+ dq +:+ "     --role=" +:+ dq +:+
    "roles/storage.objectViewer" +:+ dq;
    gcloud_command +:+ " projects add-iam-policy-binding " +:+ project_id stage +:+
    "     --role " +:+ dq +:+ "roles/compute.networkUser" +:+ dq +:+
    "     --member " +:+ dq +:+ "serviceAccount:service-" +:+ project_number +:+
    "@gcp-sa-vpcaccess.iam.gserviceaccount.com" +:+ dq;
    gcloud_command +:+ " projects add-iam-policy-binding " +:+ project_id stage +:+
    "     --role " +:+ dq +:+ "roles/compute.networkUser" +:+ dq +:+
    "     --member " +:+ dq +:+ "serviceAccount:service-" +:+ project_number +:+
    "@cloudservices.gserviceaccount.com" +:+ dq ].

Definition mysql_instance_describe_command (stage : Stage) : string :=
  gcloud_command +:+ " sql instances describe --verbosity critical     --project=" +:+
  database_project stage +:+ " " +:+ database_instance_name stage +:+
  "     | grep -q '" +:+ database_instance_name stage +:+ "'".

Definition mysql_instance_create_command (stage : Stage) : string :=
  gcloud_command +:+ " beta sql instances create " +:+
  database_instance_name stage +:+
  "     --tier=" +:+ database_tier stage +:+
  " --region=" +:+ database_region stage +:+
  "     --project=" +:+ database_project stage +:+
  " --database-version MYSQL_5_7     --storage-auto-increase     --network=projects/" +:+
  network_project stage +:+ "/global/networks/" +:+ network stage +:+
  "     --availability-type=" +:+ database_ha_type stage +:+
  "     --authorized-networks=" +:+ subnet_cidr stage +:+
  "     --no-assign-ip ".

Definition mysql_users_list_command (stage : Stage) : string :=
  gcloud_command +:+ " sql users list     --project=" +:+ database_project stage +:+
  "     --instance=" +:+ database_instance_name stage +:+
  "     | grep -q '" +:+ database_username stage +:+ "'".

Definition mysql_users_command (stage : Stage) (sql_users_command : string) : string :=
  gcloud_command +:+ " sql users " +:+ sql_users_command +:+ " " +:+
  database_username stage +:+
  "     --host %     --instance=" +:+ database_instance_name stage +:+
  "     --password=" +:+ database_password stage +:+
  "     --project=" +:+ project_id stage.

Definition mysql_databases_list_command (stage : Stage) : string :=
  gcloud_command +:+ " sql databases list     --project=" +:+ project_id stage +:+
  "     --instance=" +:+ database_instance_name stage +:+
  "     | grep -q '" +:+ database_name stage +:+ "'".

Definition mysql_database_create_command (stage : Stage) : string :=
  gcloud_command +:+ " sql databases create " +:+ database_name stage +:+
  "     --instance=" +:+ database_instance_name stage +:+
  "     --project=" +:+ project_id stage.

Definition services_enable_command (stage : Stage) : string :=
  gcloud_command +:+ " services enable     --project=" +:+ project_id stage +:+
  "     analytics.googleapis.com     analyticsreporting.googleapis.com     bigquery-json.googleapis.com     cloudapis.googleapis.com     logging.googleapis.com     storage-api.googleapis.com     storage-component.googleapis.com     sqladmin.googleapis.com     cloudscheduler.googleapis.com     cloudbuild.googleapis.com     servicenetworking.googleapis.com     compute.googleapis.com     vpcaccess.googleapis.com     dns.googleapis.com     appengine.googleapis.com".

Definition download_files_command (stage_file service_account_file : string) : string :=
  "cloudshell download-files     " +:+ dq +:+ stage_file +:+ dq +:+ "     " +:+
  dq +:+ service_account_file +:+ dq.

(** the calls the existence probes make *)
Definition appengine_probe (stage : Stage) (debug : bool) : ExecCall :=
  probe_call "Check if App Engine already exists" (appengine_describe_command stage) debug.
Definition vpc_probe (stage : Stage) (debug : bool) : ExecCall :=
  probe_call "Check if VPC already exists" (vpc_describe_command stage) debug.
Definition peering_probe (stage : Stage) (debug : bool) : ExecCall :=
  probe_call "Check if VPC Peering exists" (peering_list_command stage) debug.
Definition subnet_probe (stage : Stage) (debug : bool) : ExecCall :=
  probe_call "Check if VPC Subnet already exists" (subnet_describe_command stage) debug.
Definition connector_subnet_probe (stage : Stage) (debug : bool) : ExecCall :=
  probe_call "Check if VPC Subnet already exists"
             (connector_subnet_describe_command stage) debug.
Definition vpc_connector_probe (stage : Stage) (debug : bool) : ExecCall :=
  probe_call "Check if VPC Connector already exists"
             (vpc_connector_describe_command stage) debug.
Definition mysql_instance_probe (stage : Stage) (debug : bool) : ExecCall :=
  probe_call "Check if MySQL instance already exists"
             (mysql_instance_describe_command stage) debug.
Definition mysql_user_probe (stage : Stage) (debug : bool) : ExecCall :=
  probe_call "Check if MySQL user already exists" (mysql_users_list_command stage) debug.
Definition mysql_database_probe (stage : Stage) (debug : bool) : ExecCall :=
  probe_call "Check if MySQL database already exists"
             (mysql_databases_list_command stage) debug.

Section Cloud.
Context `{P : Platform}.

Definition fetch_stage_or_default (stage_name : option string) (debug : bool)
    : M (option (string * option Stage)) :=
  let stage_name :=
    if py_not stage_name then get_default_stage_name
    else default EmptyString stage_name in
  files <- get_fs;;
  if negb (check_stage_file files stage_name) then
    echo ("Stage file '" +:+ stage_name +:+ "' not found.");;
    ret None
  else
    let stage := get_stage_object files stage_name in
    ret (Some (stage_name, stage)).

(** *** Setup steps *)

Definition _check_if_appengine_instance_exists (stage : Stage) (debug : bool) : M bool :=
  r <- exec (appengine_probe stage debug);;
  ret (status_ok r).

Definition run_create_appengine (stage : Stage) (debug : bool) : M unit :=
  b <- _check_if_appengine_instance_exists stage debug;;
  if b then echo "     App Engine already exists."
  else
    exec (action_call "Create the App Engine instance"
                      (appengine_create_command stage) debug);;
    ret tt.

Definition _check_if_vpc_exists (stage : Stage) (debug : bool) : M bool :=
  r <- exec (vpc_probe stage debug);;
  ret (status_ok r).

Definition _check_if_peering_exists (stage : Stage) (debug : bool) : M bool :=
  r <- exec (peering_probe stage debug);;
  ret (status_ok r).

Definition run_create_vpc (stage : Stage) (debug : bool) : M unit :=
  b <- _check_if_vpc_exists stage debug;;
  if b then echo "     VPC already exists."
  else
    exec (action_call "Create the VPC" (vpc_create_command stage) debug);;
    exec (action_call "Allocating an IP address range"
                      (addresses_create_command stage) debug);;
    p <- _check_if_peering_exists stage debug;;
    let command :=
      if p then peering_update_command stage else peering_connect_command stage in
    exec (action_call "Creating or updating the private connection" command debug);;
    ret tt.

Definition _check_if_subnet_exists (stage : Stage) (debug : bool) : M bool :=
  r <- exec (subnet_probe stage debug);;
  ret (status_ok r).

Definition _check_if_connector_subnet_exists (stage : Stage) (debug : bool) : M bool :=
  r <- exec (connector_subnet_probe stage debug);;
  ret (status_ok r).

Definition run_create_subnet (stage : Stage) (debug : bool) : M unit :=
  b <- _check_if_subnet_exists stage debug;;
  (if b then echo "     VPC App Subnet already exists."
   else
     exec (action_call "Create the VPC App Subnet"
                       (subnet_create_command stage) debug);;
     ret tt);;
  c <- _check_if_connector_subnet_exists stage debug;;
  (if c then echo "     VPC Connector Subnet already exists."
   else
     exec (action_call "Create the VPC Connector Subnet"
                       (connector_subnet_create_command stage) debug);;
     ret tt);;
  ret tt.

Definition _check_if_vpc_connector_exists (stage : Stage) (debug : bool) : M bool :=
  r <- exec (vpc_connector_probe stage debug);;
  ret (status_ok r).

Definition run_create_vpc_connector (stage : Stage) (debug : bool) : M unit :=
  b <- _check_if_vpc_connector_exists stage debug;;
  (if b then echo "     VPC Connector already exists."
   else
     exec (action_call "Create the VPC Connector"
                       (vpc_connector_create_command stage) debug);;
     ret tt);;
  ret tt.

Definition run_create_service_account_key_if_needed (stage : Stage) (debug : bool)
    : M unit :=
  files <- get_fs;;
  w <- get_world;;
  if check_service_account_file files w stage then
    echo "     Service account key already exists."
  else
    let service_account_file := get_service_account_file stage in
    exec (action_call "Create the service account key"
                      (service_account_key_command stage service_account_file) debug);;
    ret tt.

Definition confirm_authorized_user_owner_role (stage : Stage) (debug : bool) : M bool :=
  r <- exec (action_call "Getting authorized user" auth_list_command debug);;
  let command := owner_role_command stage (strip (output_of r)) in
  r <- exec (probe_call "Check if authorized user is owner" command debug);;
  ret (status_ok r).

Definition run_downgrade_app_engine_python (stage : Stage) (debug : bool) : M unit :=
  exec (action_call "Downgrade app-engine-python" downgrade_command debug);;
  ret tt.

(** the loop [for cmd in commands: execute_command(label % (idx, total), cmd,
    debug=debug); idx += 1] *)
Fixpoint execute_numbered (label : string) (total idx : nat) (commands : list string)
    (debug : bool) : M unit :=
  match commands with
  | [] => ret tt
  | cmd :: rest =>
      exec (action_call (label +:+ " (" +:+ pretty idx +:+ "/" +:+ pretty total +:+ ")")
                        cmd debug);;
      execute_numbered label total (S idx) rest debug
  end.

Definition run_grant_required_permissions (stage : Stage) (debug : bool) : M unit :=
  r <- exec (action_call "Getting the project number"
                         (project_number_command stage) debug);;
  let project_number := output_of r in
  let commands := grant_commands stage (strip project_number) in
  execute_numbered "Grant required permissions" (length commands) 1 commands debug.

Definition _check_if_mysql_instance_exists (stage : Stage) (debug : bool) : M bool :=
  r <- exec (mysql_instance_probe stage debug);;
  ret (status_ok r).

Definition run_create_mysql_instance_if_needed (stage : Stage) (debug : bool) : M unit :=
  b <- _check_if_mysql_instance_exists stage debug;;
  if b then echo "     MySQL instance already exists."
  else
    exec (action_call "Creating MySQL instance"
                      (mysql_instance_create_command stage) debug);;
    ret tt.

Definition _check_if_mysql_user_exists (stage : Stage) (debug : bool) : M bool :=
  r <- exec (mysql_user_probe stage debug);;
  ret (status_ok r).

Definition run_create_mysql_user_if_needed (stage : Stage) (debug : bool) : M unit :=
  b <- _check_if_mysql_user_exists stage debug;;
  sel <- (if b then
            echo "     MySQL user already exists.";;
            ret ("set-password", "Setting MySQL user's password")
          else ret ("create", "Creating MySQL user"));;
  let sql_users_command := fst sel in
  let message := snd sel in
  exec (action_call message (mysql_users_command stage sql_users_command) debug);;
  ret tt.

Definition _check_if_mysql_database_exists (stage : Stage) (debug : bool) : M bool :=
  r <- exec (mysql_database_probe stage debug);;
  ret (status_ok r).

Definition run_create_mysql_database_if_needed (stage : Stage) (debug : bool) : M unit :=
  b <- _check_if_mysql_database_exists stage debug;;
  if b then echo "     MySQL database already exists."
  else
    exec (action_call "Creating MySQL database"
                      (mysql_database_create_command stage) debug);;
    ret tt.

Definition run_activate_services (stage : Stage) (debug : bool) : M unit :=
  exec (action_call "Activate services" (services_enable_command stage) debug);;
  ret tt.

Definition run_download_config_files (stage : Stage) (debug : bool) : M unit :=
  let stage_file_path := get_stage_file (stage_name_of stage) in
  let service_account_file_path := get_service_account_file stage in
  exec (action_call "Download configuration files"
                    (download_files_command stage_file_path service_account_file_path)
                    debug);;
  ret tt.

(** *** Deploy steps: bodies supplied by the platform *)

Definition run_deploy_step (c : component) (stage : Stage) (debug : bool) : M unit :=
  fun s =>
    let put fw := mkState (fst fw) (snd fw) (echoed s) (trace s) (invoked s) in
    match deploy_step c stage debug (fs s, world s) with
    | Ret a fw => Ret a (put fw)
    | Exit code fw => Exit code (put fw)
    | Raise e fw => Raise e (put fw)
    end.

(** [component(stage, debug=debug)] *)
Definition run_component (c : component) (stage : Stage) (debug : bool) : M unit :=
  match c with
  | downgrade_app_engine_python => run_downgrade_app_engine_python stage debug
  | activate_services => run_activate_services stage debug
  | create_vpc => run_create_vpc stage debug
  | create_subnet => run_create_subnet stage debug
  | create_vpc_connector => run_create_vpc_connector stage debug
  | create_appengine => run_create_appengine stage debug
  | create_service_account_key_if_needed =>
      run_create_service_account_key_if_needed stage debug
  | grant_required_permissions => run_grant_required_permissions stage debug
  | create_mysql_instance_if_needed => run_create_mysql_instance_if_needed stage debug
  | create_mysql_user_if_needed => run_create_mysql_user_if_needed stage debug
  | create_mysql_database_if_needed => run_create_mysql_database_if_needed stage debug
  | download_config_files => run_download_config_files stage debug
  | c => run_deploy_step c stage debug
  end.

(** [for component in components: component(stage, debug=debug)] *)
Fixpoint run_components (components : list component) (stage : Stage) (debug : bool)
    : M unit :=
  match components with
  | [] => ret tt
  | c :: rest =>
      note_invoked c;;
      run_component c stage debug;;
      run_components rest stage debug
  end.

(** *** Sub-commands *)

Definition setup_components : list component :=
  [ downgrade_app_engine_python;
    activate_services;
    create_vpc;
    create_subnet;
    create_vpc_connector;
    create_appengine;
    create_service_account_key_if_needed;
    grant_required_permissions;
    create_mysql_instance_if_needed;
    create_mysql_user_if_needed;
    create_mysql_database_if_needed;
    download_config_files ].

Definition not_owner_message : string :=
  "     This user doesn't have the owner role. " +:+ String newline EmptyString +:+
  "     Only owners can deploy this application." +:+ String newline EmptyString +:+
  "     Exiting setup.".

(** unpacking [stage_name, stage = None] *)
Definition unpack_none_error : exn := TypeError "'NoneType' object is not iterable".

(** [cloud setup] *)
Definition setup (stage_name : option string) (debug : bool) : M unit :=
  echo ">>>> Setup";;
  r <- fetch_stage_or_default stage_name debug;;
  match r with
  | None => raise unpack_none_error
  | Some (stage_name, None) => exit 1
  | Some (stage_name, Some stage) =>
      let stage := before_hook stage stage_name in
      let components := setup_components in
      ok <- confirm_authorized_user_owner_role stage debug;;
      (if ok then
         echo "     Authorized user confirmed as owner.";;
         run_components components stage debug
       else
         echo not_owner_message;;
         exit 1);;
      echo "Done."
  end.

(** the helper that [begin] calls; its component list names
    [grant_cloud_build_permissions], which the module does not define *)
Definition _setup (stage_name : option string) (debug : bool) : M unit :=
  r <- fetch_stage_or_default stage_name debug;;
  match r with
  | None => raise unpack_none_error
  | Some (stage_name, None) =>
      echo "Fix that issue by running: $ crmint stages create";;
      exit 1
  | Some (stage_name, Some stage) =>
      let stage := before_hook stage stage_name in
      raise (NameError "global name 'grant_cloud_build_permissions' is not defined")
  end.

Definition deploy_declared : list component :=
  [ install_required_packages;
    display_workdir;
    copy_src_to_workdir;
    install_backends_dependencies;
    deploy_frontend;
    deploy_backends;
    deploy_dispatch_rules;
    download_cloud_sql_proxy;
    start_cloud_sql_proxy;
    prepare_flask_envars;
    run_flask_db_upgrade;
    run_flask_db_seeds;
    stop_cloud_sql_proxy ].

(** [x in components] *)
Definition component_in (x : component) (components : list component) : bool :=
  existsb (fun y => bool_decide (x = y)) components.

(** [components.remove(x)]: drops the first occurrence *)
Fixpoint list_remove (x : component) (components : list component) : list component :=
  match components with
  | [] => []
  | y :: rest => if bool_decide (x = y) then rest else y :: list_remove x rest
  end.

(** the component list of [deploy] once the skip flags have been applied *)
Definition deploy_components (skip_deploy_backends skip_deploy_frontend : bool)
    : list component :=
  let components := deploy_declared in
  let components :=
    if skip_deploy_backends && component_in deploy_backends components
    then list_remove deploy_backends components else components in
  let components :=
    if skip_deploy_frontend && component_in deploy_frontend components
    then list_remove deploy_frontend components else components in
  components.

(** [cloud deploy] *)
Definition deploy (stage_name : option string) (debug : bool)
    (skip_deploy_backends skip_deploy_frontend : bool) : M unit :=
  echo ">>>> Deploy";;
  r <- fetch_stage_or_default stage_name debug;;
  match r with
  | None => raise unpack_none_error
  | Some (stage_name, None) =>
      echo "Fix that issue by running: $ crmint cloud setup";;
      exit 1
  | Some (stage_name, Some stage) =>
      let stage := before_hook stage stage_name in
      let components := deploy_components skip_deploy_backends skip_deploy_frontend in
      run_components components stage debug;;
      echo "Done."
  end.

Definition _deploy (stage_name : option string) (debug : bool) : M unit :=
  r <- fetch_stage_or_default stage_name debug;;
  match r with
  | None => raise unpack_none_error
  | Some (stage_name, None) =>
      echo "Fix that issue by running: $ crmint cloud setup";;
      exit 1
  | Some (stage_name, Some stage) =>
      let stage := before_hook stage stage_name in
      run_components deploy_declared stage debug;;
      echo "Done."
  end.

(** [cloud begin] *)
Definition begin (stage_name : option string) (debug : bool) : M unit :=
  echo ">>>> Starting";;
  _create stage_name;;
  _setup stage_name debug;;
  _deploy stage_name debug.

End Cloud.

(** ** Vocabulary of the statements *)

(** position of the first occurrence of a step in a component list *)
Fixpoint index_of (x : component) (l : list component) : option nat :=
  match l with
  | [] => None
  | y :: rest => if bool_decide (x = y) then Some O else S <$> index_of x rest
  end.

(** [a] is declared, and so run, strictly before [b] *)
Definition precedes (a b : component) (l : list component) : Prop :=
  exists i j, index_of a l = Some i /\ index_of b l = Some j /\ (i < j)%nat.

(** network before database before connector before compute *)
Definition network_database_connector_compute (l : list component) : Prop :=
  precedes create_vpc create_mysql_instance_if_needed l /\
  precedes create_mysql_instance_if_needed create_vpc_connector l /\
  precedes create_vpc_connector create_appengine l.


Definition probes_in (calls : list ExecCall) : nat :=
  length (List.filter is_probe calls).

Definition actions_in (calls : list ExecCall) : nat :=
  length (List.filter (fun c => negb (is_probe c)) calls).

(** the steps of the form [if exists: report; return] else create, with the
    probe each one makes *)
Definition probe_of (c : component) : option (Stage -> bool -> ExecCall) :=
  match c with
  | create_vpc => Some vpc_probe
  | create_vpc_connector => Some vpc_connector_probe
  | create_appengine => Some appengine_probe
  | create_mysql_instance_if_needed => Some mysql_instance_probe
  | create_mysql_database_if_needed => Some mysql_database_probe
  | _ => None
  end.

Section Statements.
Context `{P : Platform}.

(** a computation leaves the log of invoked steps as it found it *)
Definition keeps_invoked {A} (m : M A) : Prop :=
  forall s, invoked (result_state (m s)) = invoked s.

(** the calls made between two states of one run *)
Definition calls_since (s s' : state) : list ExecCall :=
  drop (length (trace s)) (trace s').

(** Running the step twice from [s]: both runs return, the second leaves
    files and world as the first left them, and makes one probe and no
    other call. *)
Definition second_run_is_one_probe (c : component) (stage : Stage) (debug : bool)
    (s : state) : Prop :=
  exists s1 s2,
    run_component c stage debug s = Ret tt s1 /\
    run_component c stage debug s1 = Ret tt s2 /\
    world s2 = world s1 /\ fs s2 = fs s1 /\
    probes_in (calls_since s1 s2) = 1%nat /\
    actions_in (calls_since s1 s2) = 0%nat.

(** [component(stage, debug)] called twice in a row *)
Definition run_twice (c : component) (stage : Stage) (debug : bool) : M unit :=
  run_component c stage debug;;
  run_component c stage debug.

Definition set_password_call (stage : Stage) (debug : bool) : ExecCall :=
  action_call "Setting MySQL user's password"
              (mysql_users_command stage "set-password") debug.

(** the name a command works on: the option, or the default stage name *)
Definition resolve_stage_name (stage_name : option string) : string :=
  if py_not stage_name then get_default_stage_name
  else default EmptyString stage_name.

Definition legacy_stage_path (stage_name : string) : string :=
  os_path_join (os_path_join PROJECT_DIR "scripts/variables/stages")
               (stage_name +:+ ".sh").

(** the command that [_parse_old_stage_file] runs on a v1.0 stage file *)
Definition load_call (old_filepath : string) : ExecCall :=
  mkCall "Load bash environment variables"
         (("source " +:+ old_filepath) +:+ " && set 2>/dev/null")
         (Some PROJECT_DIR) None None (Some false).

Definition set_echoed (s : state) (msgs : list string) : state :=
  mkState (fs s) (world s) msgs (trace s) (invoked s).

End Statements.

(** ** A small simulated platform, to run the commands on concrete inputs *)

Module Sim.

Record world := mkWorld {
  owner : bool;                 (* is the authorized user an owner *)
  executed : list string;       (* action commands run so far *)
  legacy_out : string;          (* what the legacy script prints under [set] *)
}.

Definition demo_stage (version : option string) : Stage :=
  mkStage "demo" version "demo-project" "demo-project" "us-central1"
          "crmint-vpc" "demo-project" "crmint-us-central1-subnet" "us-central1"
          "10.0.0.0/28" "crmint-vpc-serverless-connector"
          "crmint-us-central1-connector-subnet" "10.0.0.16/28" "2" "3" "f1-micro"
          "demo-project" "crmintapp-db" "us-central1" "db-g1-small" "zonal"
          "crmintapp" "s3cr3t" "crmintapp-db".

(** which action makes which probe succeed *)
Definition creators : list (string * string) :=
  let st := demo_stage None in
  [ (command (appengine_probe st false), appengine_create_command st);
    (command (vpc_probe st false), vpc_create_command st);
    (command (peering_probe st false), peering_connect_command st);
    (command (subnet_probe st false), subnet_create_command st);
    (command (connector_subnet_probe st false), connector_subnet_create_command st);
    (command (vpc_connector_probe st false), vpc_connector_create_command st);
    (command (mysql_instance_probe st false), mysql_instance_create_command st);
    (command (mysql_user_probe st false), mysql_users_command st "create");
    (command (mysql_database_probe st false), mysql_database_create_command st) ].

Definition present (probe_command : string) (w : world) : bool :=
  existsb (fun pc => String.eqb (fst pc) probe_command &&
                     existsb (String.eqb (snd pc)) (executed w))
          creators.

Definition run (c : ExecCall) (w : world) : result world (Z * string * string) :=
  if String.eqb (step_name c) "Load bash environment variables" then
    Ret (0, legacy_out w, EmptyString) w
  else if String.eqb (step_name c) "Getting authorized user" then
    Ret (0, "alice@example.com" +:+ String newline EmptyString, EmptyString) w
  else if String.eqb (step_name c) "Check if authorized user is owner" then
    Ret (if owner w then 0 else 1, EmptyString, EmptyString) w
  else if is_probe c then
    Ret (if present (command c) w then 0 else 1, EmptyString, EmptyString) w
  else
    Ret (0, EmptyString, EmptyString)
        (mkWorld (owner w) (executed w ++ [command c]) (legacy_out w)).

Definition stage_dir : string := "/crmint/cli/stages".
Definition project_dir : string := "/crmint".

Definition stage_file (stage_name : string) : string :=
  os_path_join stage_dir (stage_name +:+ ".py").

(** a stage file whose first line is [spec_version = "..."] carries that
    version *)
Definition version_of (content : string) : option string :=
  let '(line, _, _) := partition_on newline content in
  let '(key, eq, v) := partition_on "="%char line in
  if String.eqb key "spec_version" then Some v else None.

Definition load (files : gmap string string) (stage_name : string) : option Stage :=
  match files !! stage_file stage_name with
  | Some content => Some (demo_stage (version_of content))
  | None => None
  end.

Definition show (v : value) : string :=
  match v with
  | VStr s => s
  | VBool true => "True"
  | VBool false => "False"
  | VInt z => pretty z
  end.

(** a template with three fields *)
Definition template (context : gmap string value) : exn + string :=
  match context !! "project_id", context !! "database_tier",
        context !! "database_password" with
  | Some p, Some t, Some w =>
      inr ("project_id=" +:+ show p +:+ ";database_tier=" +:+ show t +:+
           ";database_password=" +:+ show w)
  | None, _, _ => inl (KeyError "project_id")
  | _, None, _ => inl (KeyError "database_tier")
  | _, _, None => inl (KeyError "database_password")
  end.

Definition platform (env : gmap string string) (password : string) : Platform :=
  {| World := world;
     execute_command := run;
     get_default_stage_name := "demo";
     get_stage_file := stage_file;
     check_stage_file := fun files n => os_path_exists files (stage_file n);
     get_stage_object := load;
     before_hook := fun st _ => st;
     check_service_account_file := fun _ _ _ => false;
     get_service_account_file := fun _ => "/crmint/backends/data/demo.json";
     STAGE_DIR := stage_dir;
     PROJECT_DIR := project_dir;
     STAGE_FILE_TEMPLATE_format := template;
     open_for_writing := fun _ _ => true;
     environ := env;
     random_password := password;
     deploy_step := fun _ _ _ fw => Ret tt fw |}.

(** a process start: nothing echoed, run or invoked yet *)
Definition start (env : gmap string string) (password : string)
    (files : gmap string string) (w : world) : @state (platform env password) :=
  @mkState (platform env password) files w [] [] [].

Definition fresh_world (is_owner : bool) : world := mkWorld is_owner [] EmptyString.

End Sim.

(** ** Listing the stages ([stages list]) *)

(** [s.endswith(suffix)]: some tail of [s] is [suffix] *)
Fixpoint endswith (suffix s : string) : bool :=
  String.eqb s suffix ||
  match s with
  | EmptyString => false
  | String _ rest => endswith suffix rest
  end.

(** [file_name[:-3]] *)
Definition drop_last_three (s : string) : string :=
  substring 0 (String.length s - 3) s.

Definition _ignore_stage_file (file_name : string) : bool :=
  let IGNORED_STAGE_FILES := ["__init__.py"] in
  let ENDS_WITH := [".pyc"; ".example"] in
  existsb (String.eqb file_name) IGNORED_STAGE_FILES ||
  existsb (fun suffix => endswith suffix file_name) ENDS_WITH.

Section Listing.
Context `{P : Platform}.

(** [stages list]; [listing] is what [os.listdir(constants.STAGE_DIR)]
    returns *)
Fixpoint list_stages (listing : list string) : M unit :=
  match listing with
  | [] => ret tt
  | file_name :: rest =>
      (if negb (_ignore_stage_file file_name)
       then echo (drop_last_three file_name)
       else ret tt);;
      list_stages rest
  end.

End Listing.

(** ** Vocabulary of the further statements *)

(** does the character occur in the string *)
Fixpoint contains_char (c : ascii) (s : string) : bool :=
  match s with
  | EmptyString => false
  | String d rest => Ascii.eqb d c || contains_char c rest
  end.

(** the steps made of one probe and one creation command, with the call
    that creates *)
Definition create_call_of (c : component) : option (Stage -> bool -> ExecCall) :=
  match c with
  | create_vpc_connector =>
      Some (fun stage debug =>
              action_call "Create the VPC Connector"
                          (vpc_connector_create_command stage) debug)
  | create_appengine =>
      Some (fun stage debug =>
              action_call "Create the App Engine instance"
                          (appengine_create_command stage) debug)
  | create_mysql_instance_if_needed =>
      Some (fun stage debug =>
              action_call "Creating MySQL instance"
                          (mysql_instance_create_command stage) debug)
  | create_mysql_database_if_needed =>
      Some (fun stage debug =>
              action_call "Creating MySQL database"
                          (mysql_database_create_command stage) debug)
  | _ => None
  end.

Section FurtherStatements.
Context `{P : Platform}.

(** [execute_command] always comes back with a status *)
Definition executor_returns : Prop :=
  forall c w, exists r w', execute_command c w = Ret r w'.


Definition returns {A} (r : result state A) : Prop :=
  exists a s', r = Ret a s'.



(** the world a command leaves behind *)
Definition world_after (c : ExecCall) (w : World) : World :=
  result_state (execute_command c w).

End FurtherStatements.

(** the names of the [settings] attributes among the arguments that the
    assignments do not bind *)
Definition missing_settings (assignments : list (string * value))
    (args : list (string * arg)) : list string :=
  omap (fun ka =>
          match snd ka with
          | Setting name =>
              match last_binding name assignments with
              | Some _ => None
              | None => Some name
              end
          | Formatted _ => None
          end) args.

(** ** The simulated platform with an outage: one command ends the process *)

Module Outage.

(** like [Sim.run], but the command with the given step name makes
    [execute_command] end the process with status 1 *)
Definition run (failing_step : string) (c : ExecCall) (w : Sim.world)
    : result Sim.world (Z * string * string) :=
  if String.eqb (step_name c) failing_step then Exit 1 w else Sim.run c w.

Definition platform (failing_step : string) : Platform :=
  {| World := Sim.world;
     execute_command := run failing_step;
     get_default_stage_name := "demo";
     get_stage_file := Sim.stage_file;
     check_stage_file := fun files n => os_path_exists files (Sim.stage_file n);
     get_stage_object := Sim.load;
     before_hook := fun st _ => st;
     check_service_account_file := fun _ _ _ => false;
     get_service_account_file := fun _ => "/crmint/backends/data/demo.json";
     STAGE_DIR := Sim.stage_dir;
     PROJECT_DIR := Sim.project_dir;
     STAGE_FILE_TEMPLATE_format := Sim.template;
     open_for_writing := fun _ _ => true;
     environ := ∅;
     random_password := "pw";
     deploy_step := fun _ _ _ fw => Ret tt fw |}.

Definition start (failing_step : string) (files : gmap string string) (w : Sim.world)
    : @state (platform failing_step) :=
  @mkState (platform failing_step) files w [] [] [].

End Outage.

(** * Properties *)

(** ** Laws of the command monad *)

Section Laws.
Context `{P : Platform}.

Lemma bind_Ret {A B} (m : M A) (k : A -> M B) s a s' :
  m s = Ret a s' -> bind m k s = k a s'.
Proof. intros H. unfold bind. now rewrite H. Qed.

Lemma bind_Exit {A B} (m : M A) (k : A -> M B) s code s' :
  m s = Exit code s' -> bind m k s = Exit code s'.
Proof. intros H. unfold bind. now rewrite H. Qed.

Lemma bind_Raise {A B} (m : M A) (k : A -> M B) s e s' :
  m s = Raise e s' -> bind m k s = Raise e s'.
Proof. intros H. unfold bind. now rewrite H. Qed.

Lemma exec_Ret c s r w :
  execute_command c (world s) = Ret r w ->
  exec c s = Ret r (mkState (fs s) w (echoed s) (trace s ++ [c]) (invoked s)).
Proof. intros H. unfold exec. now rewrite H. Qed.

Lemma keeps_ret {A} (a : A) : keeps_invoked (ret a).
Proof. intros s. reflexivity. Qed.

Lemma keeps_exit {A} code : keeps_invoked (@exit _ A code).
Proof. intros s. reflexivity. Qed.

Lemma keeps_raise {A} e : keeps_invoked (@raise _ A e).
Proof. intros s. reflexivity. Qed.

Lemma keeps_echo msg : keeps_invoked (echo msg).
Proof. intros s. reflexivity. Qed.

Lemma keeps_get_fs : keeps_invoked get_fs.
Proof. intros s. reflexivity. Qed.

Lemma keeps_get_world : keeps_invoked get_world.
Proof. intros s. reflexivity. Qed.

Lemma keeps_write_file path content : keeps_invoked (write_file path content).
Proof. intros s. unfold write_file. now destruct (open_for_writing _ _). Qed.

Lemma keeps_exec c : keeps_invoked (exec c).
Proof. intros s. unfold exec. now destruct (execute_command c (world s)). Qed.

Lemma keeps_bind {A B} (m : M A) (k : A -> M B) :
  keeps_invoked m -> (forall a, keeps_invoked (k a)) -> keeps_invoked (bind m k).
Proof.
  intros Hm Hk s. unfold bind. specialize (Hm s).
  destruct (m s) as [a s'|code s'|e s']; simpl in *; auto.
  now rewrite Hk.
Qed.

Lemma keeps_run_deploy_step c stage debug :
  keeps_invoked (run_deploy_step c stage debug).
Proof.
  intros s. unfold run_deploy_step.
  now destruct (deploy_step c stage debug (fs s, world s)).
Qed.

Lemma keeps_execute_numbered label total commands debug :
  forall idx, keeps_invoked (execute_numbered label total idx commands debug).
Proof.
  induction commands as [|cmd rest IH]; intros idx; simpl.
  - apply keeps_ret.
  - apply keeps_bind; [apply keeps_exec | intros _; apply IH].
Qed.

End Laws.

Create HintDb keeps.

#[local] Hint Resolve keeps_ret keeps_exit keeps_raise keeps_echo keeps_get_fs
  keeps_get_world keeps_write_file keeps_exec keeps_run_deploy_step keeps_execute_numbered
  : keeps.

(** breaks a command built from the monad operations into its parts *)
Ltac keeps_step :=
  match goal with
  | |- keeps_invoked (bind _ _) => apply keeps_bind; [|intros ?]
  | |- keeps_invoked (if ?b then _ else _) => destruct b
  | |- keeps_invoked _ => solve [auto with keeps]
  end.

Section Pipeline.
Context `{P : Platform}.

Lemma keeps_guard stage debug :
  keeps_invoked (confirm_authorized_user_owner_role stage debug).
Proof. unfold confirm_authorized_user_owner_role. repeat keeps_step. Qed.

Lemma keeps_run_component c stage debug :
  keeps_invoked (run_component c stage debug).
Proof.
  destruct c; simpl;
    try apply keeps_run_deploy_step;
    unfold run_downgrade_app_engine_python, run_activate_services, run_create_vpc,
      run_create_subnet, run_create_vpc_connector, run_create_appengine,
      run_create_service_account_key_if_needed, run_grant_required_permissions,
      run_create_mysql_instance_if_needed, run_create_mysql_user_if_needed,
      run_create_mysql_database_if_needed, run_download_config_files,
      _check_if_vpc_exists, _check_if_peering_exists, _check_if_subnet_exists,
      _check_if_connector_subnet_exists, _check_if_vpc_connector_exists,
      _check_if_appengine_instance_exists, _check_if_mysql_instance_exists,
      _check_if_mysql_user_exists, _check_if_mysql_database_exists;
    repeat keeps_step.
Qed.

Lemma run_components_cons c rest stage debug s :
  run_components (c :: rest) stage debug s =
  match run_component c stage debug
          (mkState (fs s) (world s) (echoed s) (trace s) (invoked s ++ [c])) with
  | Ret _ s1 => run_components rest stage debug s1
  | Exit code s1 => Exit code s1
  | Raise e s1 => Raise e s1
  end.
Proof. reflexivity. Qed.

(** A pipeline loop invokes a prefix of its list, in order, and the whole
    list when it returns. *)
Lemma run_components_invoked components stage debug :
  forall s, exists ran,
    invoked (result_state (run_components components stage debug s))
      = (invoked s ++ ran)%list /\
    ran `prefix_of` components /\
    (forall s', run_components components stage debug s = Ret tt s' -> ran = components).
Proof.
  induction components as [|c rest IH]; intros s.
  - exists []. simpl. rewrite app_nil_r.
    split; [reflexivity|]. split; [apply prefix_nil|]. reflexivity.
  - rewrite run_components_cons.
    set (s0 := mkState (fs s) (world s) (echoed s) (trace s) (invoked s ++ [c])).
    pose proof (keeps_run_component c stage debug s0) as Hk.
    destruct (run_component c stage debug s0) as [[] s1|code s1|e s1]; simpl in Hk.
    + destruct (IH s1) as (ran & Hinv & Hpre & Hall).
      exists (c :: ran). rewrite Hinv, Hk. rewrite <- app_assoc. simpl.
      split; [reflexivity|]. split; [now apply prefix_cons|].
      intros s' Hs'. f_equal. now apply (Hall s').
    + exists [c]. simpl. rewrite Hk.
      split; [reflexivity|]. split; [apply prefix_cons, prefix_nil|]. discriminate.
    + exists [c]. simpl. rewrite Hk.
      split; [reflexivity|]. split; [apply prefix_cons, prefix_nil|]. discriminate.
Qed.

(** *** The sub-commands, unfolded *)

Lemma fetch_stage_or_default_eq stage_name debug s :
  fetch_stage_or_default stage_name debug s =
  let name := resolve_stage_name stage_name in
  if check_stage_file (fs s) name
  then Ret (Some (name, get_stage_object (fs s) name)) s
  else Ret None
         (set_echoed s (echoed s ++ ["Stage file '" +:+ name +:+ "' not found."])).
Proof.
  unfold fetch_stage_or_default, resolve_stage_name, bind, get_fs. simpl.
  destruct (check_stage_file _ _); reflexivity.
Qed.

Lemma deploy_eq stage_name debug sb sf s :
  deploy stage_name debug sb sf s =
  let name := resolve_stage_name stage_name in
  let s0 := set_echoed s (echoed s ++ [">>>> Deploy"]) in
  if check_stage_file (fs s) name then
    match get_stage_object (fs s) name with
    | Some stage =>
        bind (run_components (deploy_components sb sf) (before_hook stage name) debug)
             (fun _ => echo "Done.") s0
    | None =>
        Exit 1 (set_echoed s0 (echoed s0 ++
                  ["Fix that issue by running: $ crmint cloud setup"]))
    end
  else Raise unpack_none_error
         (set_echoed s0 (echoed s0 ++ ["Stage file '" +:+ name +:+ "' not found."])).
Proof.
  unfold deploy. unfold bind at 1. simpl. unfold bind at 1.
  rewrite fetch_stage_or_default_eq. simpl.
  destruct (check_stage_file _ _); [|reflexivity].
  destruct (get_stage_object _ _); reflexivity.
Qed.

Lemma setup_eq stage_name debug s :
  setup stage_name debug s =
  let name := resolve_stage_name stage_name in
  let s0 := set_echoed s (echoed s ++ [">>>> Setup"]) in
  if check_stage_file (fs s) name then
    match get_stage_object (fs s) name with
    | Some stage =>
        let stage := before_hook stage name in
        bind (confirm_authorized_user_owner_role stage debug)
             (fun ok =>
                bind (if ok then
                        bind (echo "     Authorized user confirmed as owner.")
                             (fun _ => run_components setup_components stage debug)
                      else bind (echo not_owner_message) (fun _ => exit 1))
                     (fun _ => echo "Done.")) s0
    | None => Exit 1 s0
    end
  else Raise unpack_none_error
         (set_echoed s0 (echoed s0 ++ ["Stage file '" +:+ name +:+ "' not found."])).
Proof.
  unfold setup. unfold bind at 1. simpl. unfold bind at 1.
  rewrite fetch_stage_or_default_eq. simpl.
  destruct (check_stage_file _ _); [|reflexivity].
  destruct (get_stage_object _ _); reflexivity.
Qed.

End Pipeline.

(** ** Settings *)

(** C10. The database HA flag of the settings is true exactly when the
    environment variable DATABASE_HA_ENABLED is set to the string False;
    when the variable is unset or set to True the flag is false.  The other
    boolean settings (DEBUG, DATABASE_PUBLIC_IP, DATABASE_BACKUP_ENABLED)
    are true exactly when their variable is set to the string True. *)
Theorem database_ha_enabled_polarity `{P : Platform} :
  (DATABASE_HA_ENABLED = true <-> environ !! "DATABASE_HA_ENABLED" = Some "False") /\
  DATABASE_HA_ENABLED =
    match environ !! "DATABASE_HA_ENABLED" with
    | Some v => String.eqb v "False"
    | None => false
    end /\
  (DEBUG = true <-> environ !! "DEBUG" = Some "True") /\
  (DATABASE_PUBLIC_IP = true <-> environ !! "DATABASE_PUBLIC_IP" = Some "True") /\
  (DATABASE_BACKUP_ENABLED = true <->
     environ !! "DATABASE_BACKUP_ENABLED" = Some "True").
Proof.
  unfold DATABASE_HA_ENABLED, DEBUG, DATABASE_PUBLIC_IP, DATABASE_BACKUP_ENABLED, getenv.
  repeat split;
    try (destruct (environ !! _) as [v|]; simpl;
         rewrite ?String.eqb_eq; intros H; congruence).
  destruct (environ !! "DATABASE_HA_ENABLED"); reflexivity.
Qed.

(** ** The declared step lists *)

(** C6, as stated: the setup list does not put network before database
    before connector before compute; the database instance is created after
    the connector. *)
Lemma setup_order_database_after_connector :
  ~ network_database_connector_compute setup_components.
Proof.
  unfold network_database_connector_compute, precedes.
  intros (_ & (i & j & Hi & Hj & Hlt) & _).
  vm_compute in Hi, Hj.
  assert (i = 8%nat) by congruence. assert (j = 4%nat) by congruence. lia.
Qed.

(** C6, amended.  The setup list creates the network, then the subnets,
    then the connector, then App Engine, and after these the database
    instance, its user and its database: network before connector before
    compute before database. *)
Theorem setup_order_network_connector_compute_database :
  precedes create_vpc create_subnet setup_components /\
  precedes create_subnet create_vpc_connector setup_components /\
  precedes create_vpc_connector create_appengine setup_components /\
  precedes create_appengine create_mysql_instance_if_needed setup_components /\
  precedes create_vpc create_mysql_instance_if_needed setup_components /\
  precedes create_mysql_instance_if_needed create_mysql_user_if_needed setup_components /\
  precedes create_mysql_user_if_needed create_mysql_database_if_needed setup_components.
Proof.
  repeat split; eexists _, _; (split; [|split]); try (vm_compute; reflexivity); lia.
Qed.

Section PipelineOutcome.
Context `{P : Platform}.







End PipelineOutcome.



(** ** The setup pipeline *)

(** C4. When the owner-role check of setup evaluates to false, setup exits
    with status 1 after the two commands of the check: no step of the setup
    list is invoked and no other command is run. *)
Theorem setup_guard_false_runs_no_step `{P : Platform}
    (stage_name : option string) (debug : bool) (s s1 : state) (stage : Stage) :
  let name := resolve_stage_name stage_name in
  check_stage_file (fs s) name = true ->
  get_stage_object (fs s) name = Some stage ->
  confirm_authorized_user_owner_role (before_hook stage name) debug
    (set_echoed s (echoed s ++ [">>>> Setup"])) = Ret false s1 ->
  setup stage_name debug s
    = Exit 1 (set_echoed s1 (echoed s1 ++ [not_owner_message])) /\
  invoked s1 = invoked s /\
  exists auth_user,
    trace s1 =
      (trace s ++
       [ action_call "Getting authorized user" auth_list_command debug;
         probe_call "Check if authorized user is owner"
                    (owner_role_command (before_hook stage name) auth_user) debug ])%list.
Proof.
  intros name Hfile Hobj Hguard.
  split; [|split].
  - rewrite setup_eq. cbv zeta. fold name. rewrite Hfile, Hobj.
    unfold bind at 1. rewrite Hguard. reflexivity.
  - pose proof (keeps_guard (before_hook stage name) debug
                  (set_echoed s (echoed s ++ [">>>> Setup"]))) as Hk.
    rewrite Hguard in Hk. exact Hk.
  - revert Hguard. unfold confirm_authorized_user_owner_role, bind, exec. simpl.
    destruct (execute_command _ (world s)) as [r w|code w|e w]; try discriminate.
    simpl.
    destruct (execute_command _ w) as [r' w'|code w'|e w']; try discriminate.
    unfold ret. intros [= _ <-]. simpl.
    exists (strip (output_of r)). rewrite <- app_assoc. reflexivity.
Qed.

Lemma setup_guard_false_runs_no_step_witness :
  let s := Sim.start ∅ "pw" {[ Sim.stage_file "demo" := "project_id = demo" ]}
                     (Sim.fresh_world false) in
  exists s1,
    @setup (Sim.platform ∅ "pw") (Some "demo") false s
      = Exit 1 (set_echoed s1 (echoed s1 ++ [not_owner_message])) /\
    invoked s1 = [].
Proof.
  intros s.
  destruct (setup_guard_false_runs_no_step (P := Sim.platform ∅ "pw")
              (Some "demo") false s
              (result_state
                 (confirm_authorized_user_owner_role (Sim.demo_stage None) false
                    (set_echoed s (echoed s ++ [">>>> Setup"]))))
              (Sim.demo_stage None))
    as (Hexit & Hinv & _).
  - vm_compute. reflexivity.
  - vm_compute. reflexivity.
  - vm_compute. reflexivity.
  - eexists. split; [exact Hexit | exact Hinv].
Defined.

(** ** Running a step twice *)

Section SecondRun.
Context `{P : Platform}.

Lemma calls_since_app (s s' : state) (calls : list ExecCall) :
  trace s' = (trace s ++ calls)%list -> calls_since s s' = calls.
Proof. intros H. unfold calls_since. rewrite H. apply drop_app_length. Qed.

(** a step that probes, reports and returns when its resource is there *)
Lemma probe_then_report probe msg (create : M unit) s r w :
  execute_command probe (world s) = Ret r w ->
  status_ok r = true ->
  bind (bind (exec probe) (fun r => ret (status_ok r)))
       (fun b : bool => if b then echo msg else create) s
  = Ret tt (mkState (fs s) w (echoed s ++ [msg]) (trace s ++ [probe]) (invoked s)).
Proof.
  intros He Hok. unfold bind, exec. rewrite He. unfold ret. rewrite Hok. reflexivity.
Qed.

End SecondRun.

(** C1, as stated: on the simulated platform, with nothing created yet, the
    second run of the subnet step makes two probes, and the second run of
    the MySQL-user step runs a command that is not a probe
    (set-password). *)
Lemma second_run_is_not_one_probe :
  let s := Sim.start ∅ "pw" ∅ (Sim.fresh_world true) in
  ~ second_run_is_one_probe create_subnet (Sim.demo_stage None) false s /\
  ~ second_run_is_one_probe create_mysql_user_if_needed (Sim.demo_stage None) false s.
Proof.
  intros s. split.
  - intros (s1 & s2 & H1 & H2 & _ & _ & Hp & _).
    assert (s1 = result_state (run_component create_subnet (Sim.demo_stage None) false s))
      as -> by (rewrite H1; reflexivity).
    assert (s2 = result_state
                   (run_component create_subnet (Sim.demo_stage None) false
                      (result_state
                         (run_component create_subnet (Sim.demo_stage None) false s))))
      as -> by (rewrite H2; reflexivity).
    vm_compute in Hp. discriminate Hp.
  - intros (s1 & s2 & H1 & H2 & _ & _ & _ & Ha).
    assert (s1 = result_state
                   (run_component create_mysql_user_if_needed (Sim.demo_stage None)
                      false s))
      as -> by (rewrite H1; reflexivity).
    assert (s2 = result_state
                   (run_component create_mysql_user_if_needed (Sim.demo_stage None) false
                      (result_state
                         (run_component create_mysql_user_if_needed
                            (Sim.demo_stage None) false s))))
      as -> by (rewrite H2; reflexivity).
    vm_compute in Ha. discriminate Ha.
Qed.

(** C1, amended.  Run a step twice in a row, and let the first run return.
    - For a step that checks and then creates (VPC, VPC connector, App
      Engine, MySQL instance, MySQL database): if its probe then reports the
      resource, without changing the world, the second run makes that one
      probe and no other call, and leaves files and world as the first run
      left them.
    - The subnet step makes two probes in the second run, one for each
      subnet, and no other call when both report their subnet.
    - The MySQL-user step makes one probe in the second run and then runs
      one set-password command. *)
Theorem second_run_probes_without_creating `{P : Platform}
    (stage : Stage) (debug : bool) (s s1 : state) :
  (forall c probe r,
     probe_of c = Some probe ->
     run_component c stage debug s = Ret tt s1 ->
     execute_command (probe stage debug) (world s1) = Ret r (world s1) ->
     status_ok r = true ->
     exists s2,
       run_twice c stage debug s = Ret tt s2 /\
       world s2 = world s1 /\ fs s2 = fs s1 /\
       calls_since s1 s2 = [probe stage debug]) /\
  (forall r1 r2,
     run_component create_subnet stage debug s = Ret tt s1 ->
     execute_command (subnet_probe stage debug) (world s1) = Ret r1 (world s1) ->
     status_ok r1 = true ->
     execute_command (connector_subnet_probe stage debug) (world s1)
       = Ret r2 (world s1) ->
     status_ok r2 = true ->
     exists s2,
       run_twice create_subnet stage debug s = Ret tt s2 /\
       world s2 = world s1 /\ fs s2 = fs s1 /\
       calls_since s1 s2 = [subnet_probe stage debug; connector_subnet_probe stage debug]) /\
  (forall r1 r2 w2,
     run_component create_mysql_user_if_needed stage debug s = Ret tt s1 ->
     execute_command (mysql_user_probe stage debug) (world s1) = Ret r1 (world s1) ->
     status_ok r1 = true ->
     execute_command (set_password_call stage debug) (world s1) = Ret r2 w2 ->
     exists s2,
       run_twice create_mysql_user_if_needed stage debug s = Ret tt s2 /\
       world s2 = w2 /\ fs s2 = fs s1 /\
       calls_since s1 s2 = [mysql_user_probe stage debug; set_password_call stage debug]).
Proof.
  split; [|split].
  - intros c probe r Hc Hfirst He Hok.
    unfold run_twice. rewrite (bind_Ret _ _ _ _ _ Hfirst).
    destruct c; simpl in Hc; try discriminate Hc;
      injection Hc as <-; simpl;
      unfold run_create_vpc, run_create_vpc_connector, run_create_appengine,
        run_create_mysql_instance_if_needed, run_create_mysql_database_if_needed,
        _check_if_vpc_exists, _check_if_vpc_connector_exists,
        _check_if_appengine_instance_exists, _check_if_mysql_instance_exists,
        _check_if_mysql_database_exists;
      try (erewrite probe_then_report by eassumption;
           eexists; split; [reflexivity|]; simpl;
           split; [reflexivity|]; split; [reflexivity|];
           now apply calls_since_app).
    (* the connector step ends with a [return] after its branches *)
    unfold bind, exec. rewrite He. unfold ret. rewrite Hok. simpl.
    eexists; split; [reflexivity|]; simpl.
    split; [reflexivity|]; split; [reflexivity|]. now apply calls_since_app.
  - intros r1 r2 Hfirst He1 Hok1 He2 Hok2.
    unfold run_twice. rewrite (bind_Ret _ _ _ _ _ Hfirst). simpl.
    unfold run_create_subnet, _check_if_subnet_exists,
      _check_if_connector_subnet_exists, bind, exec.
    rewrite He1. unfold ret. rewrite Hok1. simpl. rewrite He2, Hok2. simpl.
    eexists; split; [reflexivity|]; simpl.
    split; [reflexivity|]; split; [reflexivity|].
    apply calls_since_app. simpl. now rewrite <- app_assoc.
  - intros r1 r2 w2 Hfirst He1 Hok1 He2.
    unfold run_twice. rewrite (bind_Ret _ _ _ _ _ Hfirst). simpl.
    unfold run_create_mysql_user_if_needed, _check_if_mysql_user_exists, bind, exec.
    rewrite He1. unfold ret. rewrite Hok1. simpl.
    unfold set_password_call in He2. rewrite He2.
    eexists; split; [reflexivity|]; simpl.
    split; [reflexivity|]; split; [reflexivity|].
    apply calls_since_app. simpl. now rewrite <- app_assoc.
Qed.

Lemma second_run_probes_without_creating_witness :
  let st := Sim.demo_stage None in
  let s := Sim.start ∅ "pw" ∅ (Sim.fresh_world true) in
  let after c := result_state (run_component c st false s) in
  (exists s2, run_twice create_mysql_instance_if_needed st false s = Ret tt s2 /\
              world s2 = world (after create_mysql_instance_if_needed) /\
              calls_since (after create_mysql_instance_if_needed) s2
                = [mysql_instance_probe st false]) /\
  (exists s2, run_twice create_subnet st false s = Ret tt s2 /\
              calls_since (after create_subnet) s2
                = [subnet_probe st false; connector_subnet_probe st false]) /\
  (exists s2, run_twice create_mysql_user_if_needed st false s = Ret tt s2 /\
              calls_since (after create_mysql_user_if_needed) s2
                = [mysql_user_probe st false; set_password_call st false]).
Proof.
  intros st s after.
  split; [|split].
  - destruct (second_run_probes_without_creating (P := Sim.platform ∅ "pw")
                st false s (after create_mysql_instance_if_needed))
      as (Hstep & _ & _).
    destruct (Hstep create_mysql_instance_if_needed mysql_instance_probe
                (0, EmptyString, EmptyString))
      as (s2 & Hrun & Hworld & _ & Hcalls).
    + reflexivity.
    + vm_compute. reflexivity.
    + vm_compute. reflexivity.
    + reflexivity.
    + exists s2. split; [exact Hrun|]. split; [exact Hworld | exact Hcalls].
  - destruct (second_run_probes_without_creating (P := Sim.platform ∅ "pw")
                st false s (after create_subnet))
      as (_ & Hsubnet & _).
    destruct (Hsubnet (0, EmptyString, EmptyString) (0, EmptyString, EmptyString))
      as (s2 & Hrun & _ & _ & Hcalls).
    + vm_compute. reflexivity.
    + vm_compute. reflexivity.
    + reflexivity.
    + vm_compute. reflexivity.
    + reflexivity.
    + exists s2. split; [exact Hrun | exact Hcalls].
  - destruct (second_run_probes_without_creating (P := Sim.platform ∅ "pw")
                st false s (after create_mysql_user_if_needed))
      as (_ & _ & Huser).
    destruct (Huser (0, EmptyString, EmptyString) (0, EmptyString, EmptyString)
                (Sim.mkWorld true
                   [ mysql_users_command st "create";
                     mysql_users_command st "set-password" ] EmptyString))
      as (s2 & Hrun & _ & _ & Hcalls).
    + vm_compute. reflexivity.
    + vm_compute. reflexivity.
    + reflexivity.
    + vm_compute. reflexivity.
    + exists s2. split; [exact Hrun | exact Hcalls].
Defined.

(** ** Stage files *)

Section StageFiles.
Context `{P : Platform}.

(** Building the default context stops at the first attribute that
    [settings] does not bind: [SUBNET_REGION], the seventeenth argument.
    The sixteen arguments before it have a value. *)
Lemma default_stage_context_stops stage_name s :
  _default_stage_context stage_name s = Raise (no_attribute "SUBNET_REGION") s.
Proof. reflexivity. Qed.

Lemma _create_stage_file_default_stops stage_name s :
  _create_stage_file stage_name None s = Raise (no_attribute "SUBNET_REGION") s.
Proof.
  unfold _create_stage_file. unfold bind at 1.
  now rewrite default_stage_context_stops.
Qed.

Lemma set_echoed_same s : set_echoed s (echoed s ++ []) = s.
Proof. unfold set_echoed. rewrite app_nil_r. now destruct s. Qed.

Lemma create_eq stage_name s :
  create stage_name s =
  if check_stage_file (fs s) (resolve_stage_name stage_name)
  then Exit 1 (set_echoed s (echoed s ++ [already_exists_message]))
  else Raise (no_attribute "SUBNET_REGION") s.
Proof.
  unfold create. fold (resolve_stage_name stage_name).
  unfold bind at 1. unfold get_fs at 1. cbv beta iota. unfold bind at 1.
  destruct (check_stage_file _ _); [reflexivity|].
  unfold ret at 1. cbv beta iota.
  unfold bind at 1. now rewrite _create_stage_file_default_stops.
Qed.

Lemma _create_eq stage_name s :
  _create stage_name s =
  Raise (no_attribute "SUBNET_REGION")
        (set_echoed s
           (echoed s ++
            if check_stage_file (fs s) (resolve_stage_name stage_name)
            then [already_exists_message] else [])).
Proof.
  unfold _create. fold (resolve_stage_name stage_name).
  unfold bind at 1. unfold get_fs at 1. cbv beta iota. unfold bind at 1.
  destruct (check_stage_file _ _).
  - unfold bind at 1. unfold echo at 1. cbv beta iota. unfold ret at 1.
    unfold bind at 1. now rewrite _create_stage_file_default_stops.
  - unfold ret at 1. cbv beta iota.
    unfold bind at 1. rewrite _create_stage_file_default_stops.
    now rewrite set_echoed_same.
Qed.

Lemma begin_stops_in_create stage_name debug s :
  begin stage_name debug s =
  Raise (no_attribute "SUBNET_REGION")
        (set_echoed s
           (echoed s ++
            ">>>> Starting" ::
            if check_stage_file (fs s) (resolve_stage_name stage_name)
            then [already_exists_message] else [])).
Proof.
  unfold begin. unfold bind at 1. unfold echo at 1. cbv beta iota.
  unfold bind at 1. rewrite _create_eq.
  unfold set_echoed. cbn [fs world echoed trace invoked].
  now rewrite <- app_assoc.
Qed.

End StageFiles.

(** C9, on the code: create for the stage demo, a name that is free, raises
    AttributeError while it builds the default context, at the reference to
    settings.SUBNET_REGION; it echoes nothing and writes no file.  On a name
    that is taken it echoes that the name exists and exits with status 1. *)
Theorem create_free_name_raises_AttributeError :
  let P := Sim.platform ∅ "pw" in
  let free := Sim.start ∅ "pw" ∅ (Sim.fresh_world true) in
  let taken := Sim.start ∅ "pw" {[ Sim.stage_file "demo" := "project_id = demo" ]}
                         (Sim.fresh_world true) in
  @create P (Some "demo") free
    = Raise (AttributeError "'module' object has no attribute 'SUBNET_REGION'") free /\
  @create P (Some "demo") taken
    = Exit 1 (set_echoed taken [already_exists_message]).
Proof.
  intros P free taken. split.
  - rewrite (create_eq (P := P)). reflexivity.
  - rewrite (create_eq (P := P)). reflexivity.
Qed.

(** ** Migration *)

Section Migration.
Context `{P : Platform}.

Lemma detect_unsupported stage_name s :
  os_path_exists (fs s) (get_stage_file stage_name) = true ->
  py_in (getattr_spec_version (get_stage_object (fs s) stage_name))
        SUPPORTED_STAGE_VERSIONS = false ->
  _detect_stage_version stage_name s
    = Raise (ValueError (unsupported_version_message
                           (getattr_spec_version (get_stage_object (fs s) stage_name)))) s.
Proof.
  intros Hex Hin. unfold _detect_stage_version, bind, get_fs.
  rewrite Hex, Hin. reflexivity.
Qed.

Lemma detect_legacy stage_name s :
  os_path_exists (fs s) (get_stage_file stage_name) = false ->
  os_path_exists (fs s) (legacy_stage_path stage_name) = true ->
  _detect_stage_version stage_name s
    = Ret (STAGE_VERSION_1_0, legacy_stage_path stage_name) s.
Proof.
  intros Hpy Hsh. unfold _detect_stage_version, bind, get_fs.
  rewrite Hpy. fold (legacy_stage_path stage_name). rewrite Hsh. reflexivity.
Qed.

End Migration.

(** C3. When the stage file carries a version tag outside v1.0 and v2.0,
    version detection raises ValueError, and migrate echoes the message and
    exits with status 1; files, world and command trace are as before, so no
    stage file is written. *)
Theorem migrate_rejects_unsupported_version `{P : Platform}
    (stage_name : option string) (s : state) :
  let name := resolve_stage_name stage_name in
  let tag := getattr_spec_version (get_stage_object (fs s) name) in
  os_path_exists (fs s) (get_stage_file name) = true ->
  py_in tag SUPPORTED_STAGE_VERSIONS = false ->
  _detect_stage_version name s
    = Raise (ValueError (unsupported_version_message tag)) s /\
  migrate stage_name s
    = Exit 1 (set_echoed s (echoed s ++ [unsupported_version_message tag])).
Proof.
  intros name tag Hex Hin.
  pose proof (detect_unsupported name s Hex Hin) as Hdet. fold tag in Hdet.
  split; [exact Hdet|].
  unfold migrate. fold (resolve_stage_name stage_name). fold name.
  unfold bind at 1, try_except_ValueError, _parse_old_stage_file.
  unfold bind at 1. unfold bind at 1. rewrite Hdet. reflexivity.
Qed.

Lemma migrate_rejects_unsupported_version_witness :
  let file := "spec_version=v3.0" +:+ String newline "project_id=demo" in
  let s := Sim.start ∅ "pw" {[ Sim.stage_file "demo" := file ]} (Sim.fresh_world true) in
  @migrate (Sim.platform ∅ "pw") (Some "demo") s
    = Exit 1 (set_echoed s ["Unsupported spec version: 'v3.0'. Supported versions are ('v1.0', 'v2.0')"]).
Proof.
  intros file s.
  apply (migrate_rejects_unsupported_version (P := Sim.platform ∅ "pw") (Some "demo") s).
  - vm_compute. reflexivity.
  - vm_compute. reflexivity.
Defined.

Section MigrationRun.
Context `{P : Platform}.

(** migrate on a stage detected as v1.0: the old file is loaded through the
    shell, and when that command comes back the default context is built,
    which raises *)
Lemma migrate_v1_eq (stage_name : option string) (s : state)
    (old_filepath : string) (r : Z * string * string) (w : World) :
  let name := resolve_stage_name stage_name in
  _detect_stage_version name s = Ret (STAGE_VERSION_1_0, old_filepath) s ->
  execute_command (load_call old_filepath) (world s) = Ret r w ->
  migrate stage_name s =
  Raise (no_attribute "SUBNET_REGION")
        (mkState (fs s) w (echoed s) (trace s ++ [load_call old_filepath]) (invoked s)).
Proof.
  intros name Hdet Hrun.
  unfold migrate. fold (resolve_stage_name stage_name). fold name.
  unfold bind at 1, try_except_ValueError, _parse_old_stage_file.
  unfold bind at 1. unfold bind at 1.
  rewrite Hdet. cbv beta iota.
  change (String.eqb STAGE_VERSION_1_0 STAGE_VERSION_1_0) with true.
  cbv beta iota.
  unfold bind at 1, exec.
  unfold load_call in Hrun. rewrite Hrun.
  destruct r as [[status out] err]. reflexivity.
Qed.

End MigrationRun.

(** C2, on the code: migrate for the legacy stage demo, whose script sets
    database_tier, runs the command that loads the script and then raises
    AttributeError while it builds the default context, at the reference to
    settings.SUBNET_REGION.  The legacy mapping has been parsed, with the
    legacy value under database_tier, but nothing is echoed and no stage
    file is written: the files are those of the start. *)
Theorem migrate_legacy_stage_raises_AttributeError :
  let P := Sim.platform ∅ "pw" in
  let script := "/crmint/scripts/variables/stages/demo.sh" in
  let out := "database_tier=db-n1-standard-2" in
  let s := Sim.start ∅ "pw" {[ script := out ]} (Sim.mkWorld true [] out) in
  @migrate P (Some "demo") s
    = Raise (AttributeError "'module' object has no attribute 'SUBNET_REGION'")
            (@mkState P (fs s) (world s) [] [@load_call P script] []) /\
  parse_env_lines out !! "database_tier" = Some "db-n1-standard-2" /\
  fs s !! Sim.stage_file "demo" = None.
Proof.
  intros P script out s. split; [|split].
  - rewrite (migrate_v1_eq (P := P) (Some "demo") s script
               (0, out, EmptyString) (world s)).
    + reflexivity.
    + reflexivity.
    + reflexivity.
  - vm_compute. reflexivity.
  - vm_compute. reflexivity.
Qed.

(** ** Commands on a stage that is missing, or that exists already *)

Section StageLookup.
Context `{P : Platform}.

(** setup on a name without a stage file: the lookup reports the missing
    file and returns [None], and unpacking that result raises *)
Lemma setup_stage_not_found stage_name debug s :
  let name := resolve_stage_name stage_name in
  check_stage_file (fs s) name = false ->
  setup stage_name debug s
    = Raise unpack_none_error
        (set_echoed s (echoed s ++
           [">>>> Setup"; "Stage file '" +:+ name +:+ "' not found."])).
Proof.
  intros name Hex. rewrite setup_eq. cbv zeta. fold name. rewrite Hex.
  unfold set_echoed. simpl. rewrite <- app_assoc. reflexivity.
Qed.

Lemma _setup_eq stage_name debug s :
  _setup stage_name debug s =
  let name := resolve_stage_name stage_name in
  if check_stage_file (fs s) name then
    match get_stage_object (fs s) name with
    | Some stage =>
        Raise (NameError "global name 'grant_cloud_build_permissions' is not defined") s
    | None =>
        Exit 1 (set_echoed s (echoed s ++
                  ["Fix that issue by running: $ crmint stages create"]))
    end
  else Raise unpack_none_error
         (set_echoed s (echoed s ++ ["Stage file '" +:+ name +:+ "' not found."])).
Proof.
  unfold _setup. unfold bind at 1. rewrite fetch_stage_or_default_eq. cbv zeta.
  destruct (check_stage_file _ _); [|reflexivity].
  destruct (get_stage_object _ _); reflexivity.
Qed.

End StageLookup.

(** C7, on the code: setup for the stage demo, which has no stage file,
    echoes that the stage file was not found and then raises TypeError while
    unpacking the missing result; it writes no file, and nothing it echoes
    names the command that creates a stage. *)
Theorem setup_missing_stage_raises_TypeError :
  let s := Sim.start ∅ "pw" ∅ (Sim.fresh_world true) in
  @setup (Sim.platform ∅ "pw") (Some "demo") false s
    = Raise (TypeError "'NoneType' object is not iterable")
            (set_echoed s [">>>> Setup"; "Stage file 'demo' not found."]).
Proof.
  intros s.
  apply (setup_stage_not_found (P := Sim.platform ∅ "pw") (Some "demo") false s).
  reflexivity.
Qed.



(** * Further properties *)

(** ** Version detection and migration *)


Section Detection.
Context `{P : Platform}.

Lemma detect_python_file stage_name s :
  os_path_exists (fs s) (get_stage_file stage_name) = true ->
  py_in (getattr_spec_version (get_stage_object (fs s) stage_name))
        SUPPORTED_STAGE_VERSIONS = true ->
  _detect_stage_version stage_name s
    = Ret (getattr_spec_version (get_stage_object (fs s) stage_name),
           get_stage_file stage_name) s.
Proof.
  intros Hpy Hin. unfold _detect_stage_version, bind, get_fs.
  rewrite Hpy, Hin. reflexivity.
Qed.

Lemma detect_no_file stage_name s :
  os_path_exists (fs s) (get_stage_file stage_name) = false ->
  os_path_exists (fs s) (legacy_stage_path stage_name) = false ->
  _detect_stage_version stage_name s
    = Raise (ValueError ("No stage file found for name: '" +:+ stage_name +:+ "'")) s.
Proof.
  intros Hpy Hsh. unfold _detect_stage_version, bind, get_fs.
  rewrite Hpy. fold (legacy_stage_path stage_name). rewrite Hsh. reflexivity.
Qed.

End Detection.

(** X1. Version detection looks at the Python stage file first: when it
    exists with a supported tag, that tag and that file are the answer,
    whether or not a legacy script exists too (a stage module without
    spec_version counts as v2.0).  Without the Python file, a legacy script
    makes the stage v1.0; with neither, detection raises ValueError. *)
Theorem detect_stage_version_order `{P : Platform} (stage_name : string) (s : state) :
  let python := get_stage_file stage_name in
  let bash := legacy_stage_path stage_name in
  let tag := getattr_spec_version (get_stage_object (fs s) stage_name) in
  (os_path_exists (fs s) python = true ->
   py_in tag SUPPORTED_STAGE_VERSIONS = true ->
   _detect_stage_version stage_name s = Ret (tag, python) s) /\
  (os_path_exists (fs s) python = false ->
   os_path_exists (fs s) bash = true ->
   _detect_stage_version stage_name s = Ret (STAGE_VERSION_1_0, bash) s) /\
  (os_path_exists (fs s) python = false ->
   os_path_exists (fs s) bash = false ->
   _detect_stage_version stage_name s
     = Raise (ValueError ("No stage file found for name: '" +:+ stage_name +:+ "'")) s).
Proof.
  intros python bash tag. split; [|split].
  - apply detect_python_file.
  - apply detect_legacy.
  - apply detect_no_file.
Qed.

Lemma detect_stage_version_order_witness :
  let P := Sim.platform ∅ "pw" in
  let both : gmap string string :=
    {[ Sim.stage_file "demo" := "project_id=demo";
       "/crmint/scripts/variables/stages/demo.sh" := "project_id=demo" ]} in
  let legacy : gmap string string :=
    {[ "/crmint/scripts/variables/stages/demo.sh" := "project_id=demo" ]} in
  let at_start files := Sim.start ∅ "pw" files (Sim.fresh_world true) in
  @_detect_stage_version P "demo" (at_start both)
    = Ret ("v2.0", "/crmint/cli/stages/demo.py") (at_start both) /\
  @_detect_stage_version P "demo" (at_start legacy)
    = Ret ("v1.0", "/crmint/scripts/variables/stages/demo.sh") (at_start legacy) /\
  @_detect_stage_version P "demo" (at_start ∅)
    = Raise (ValueError "No stage file found for name: 'demo'") (at_start ∅).
Proof.
  intros P both legacy at_start. split; [|split].
  - apply (detect_stage_version_order (P := P) "demo" (at_start both)).
    + vm_compute. reflexivity.
    + vm_compute. reflexivity.
  - apply (detect_stage_version_order (P := P) "demo" (at_start legacy)).
    + vm_compute. reflexivity.
    + vm_compute. reflexivity.
  - apply (detect_stage_version_order (P := P) "demo" (at_start ∅)).
    + vm_compute. reflexivity.
    + vm_compute. reflexivity.
Defined.

(** X2. migrate on a stage that is already current (a Python stage file
    tagged v2.0, or without a tag) echoes that the latest version was
    detected and exits with status 0: no file is written and no command is
    run. *)
Theorem migrate_current_stage_exits_0 `{P : Platform}
    (stage_name : option string) (s : state) :
  let name := resolve_stage_name stage_name in
  os_path_exists (fs s) (get_stage_file name) = true ->
  getattr_spec_version (get_stage_object (fs s) name) = STAGE_VERSION_2_0 ->
  migrate stage_name s
    = Exit 0 (set_echoed s (echoed s ++ ["Already latest version detected: " +:+ name])).
Proof.
  intros name Hpy Htag.
  pose proof (detect_python_file name s Hpy) as Hdet.
  rewrite Htag in Hdet. specialize (Hdet eq_refl).
  unfold migrate. fold (resolve_stage_name stage_name). fold name.
  unfold bind at 1, try_except_ValueError, _parse_old_stage_file.
  unfold bind at 1. unfold bind at 1. rewrite Hdet. reflexivity.
Qed.

Lemma migrate_current_stage_exits_0_witness :
  let s := Sim.start ∅ "pw" {[ Sim.stage_file "demo" := "project_id=demo" ]}
                     (Sim.fresh_world true) in
  @migrate (Sim.platform ∅ "pw") (Some "demo") s
    = Exit 0 (set_echoed s ["Already latest version detected: demo"]).
Proof.
  intros s.
  apply (migrate_current_stage_exits_0 (P := Sim.platform ∅ "pw") (Some "demo") s).
  - vm_compute. reflexivity.
  - vm_compute. reflexivity.
Defined.

(** X3. migrate on a name that has neither a Python stage file nor a legacy
    script echoes that no stage file was found and exits with status 1: no
    file is written and no command is run. *)
Theorem migrate_missing_stage_exits_1 `{P : Platform}
    (stage_name : option string) (s : state) :
  let name := resolve_stage_name stage_name in
  os_path_exists (fs s) (get_stage_file name) = false ->
  os_path_exists (fs s) (legacy_stage_path name) = false ->
  migrate stage_name s
    = Exit 1 (set_echoed s (echoed s ++
                ["No stage file found for name: '" +:+ name +:+ "'"])).
Proof.
  intros name Hpy Hsh.
  pose proof (detect_no_file name s Hpy Hsh) as Hdet.
  unfold migrate. fold (resolve_stage_name stage_name). fold name.
  unfold bind at 1, try_except_ValueError, _parse_old_stage_file.
  unfold bind at 1. unfold bind at 1. rewrite Hdet. reflexivity.
Qed.

Lemma migrate_missing_stage_exits_1_witness :
  let s := Sim.start ∅ "pw" ∅ (Sim.fresh_world true) in
  @migrate (Sim.platform ∅ "pw") None s
    = Exit 1 (set_echoed s ["No stage file found for name: 'demo'"]).
Proof.
  intros s.
  apply (migrate_missing_stage_exits_1 (P := Sim.platform ∅ "pw") None s).
  - vm_compute. reflexivity.
  - vm_compute. reflexivity.
Defined.

(** ** The legacy mapping *)

Lemma split_on_nonempty sep s : split_on sep s <> [].
Proof.
  destruct s as [|c r]; simpl; [discriminate|].
  destruct (Ascii.eqb c sep); [discriminate|].
  destruct (split_on sep r); discriminate.
Qed.

Lemma split_on_app sep a b :
  split_on sep (a +:+ String sep b) = (split_on sep a ++ split_on sep b)%list.
Proof.
  induction a as [|c a IH]; simpl.
  - now rewrite Ascii.eqb_refl.
  - destruct (Ascii.eqb c sep); [now rewrite IH|].
    rewrite IH. pose proof (split_on_nonempty sep a) as Hne.
    destruct (split_on sep a); [contradiction|reflexivity].
Qed.

Lemma split_on_no_sep sep s :
  contains_char sep s = false -> split_on sep s = [s].
Proof.
  induction s as [|c r IH]; simpl; [reflexivity|].
  intros H. apply orb_false_iff in H as [Hc Hr].
  rewrite Hc, (IH Hr). reflexivity.
Qed.

Lemma partition_on_sep sep k v :
  contains_char sep k = false ->
  partition_on sep (k +:+ String sep v) = (k, String sep EmptyString, v).
Proof.
  induction k as [|c r IH]; simpl.
  - now rewrite Ascii.eqb_refl.
  - intros H. apply orb_false_iff in H as [Hc Hr].
    rewrite Hc, (IH Hr). reflexivity.
Qed.

Lemma partition_on_no_sep sep s :
  contains_char sep s = false ->
  partition_on sep s = (s, EmptyString, EmptyString).
Proof.
  induction s as [|c r IH]; simpl; [reflexivity|].
  intros H. apply orb_false_iff in H as [Hc Hr].
  rewrite Hc, (IH Hr). reflexivity.
Qed.

Lemma contains_char_app c a b :
  contains_char c (a +:+ b) = contains_char c a || contains_char c b.
Proof.
  induction a as [|d r IH]; simpl; [reflexivity|].
  now rewrite IH, orb_assoc.
Qed.

Lemma parse_env_lines_last_line out line :
  contains_char newline line = false ->
  parse_env_lines (out +:+ String newline line) =
  let '(key, _, value) := partition_on "="%char line in
  <[key := value]> (parse_env_lines out).
Proof.
  intros Hnl. unfold parse_env_lines.
  rewrite split_on_app, foldl_app, (split_on_no_sep _ _ Hnl). reflexivity.
Qed.

(** X4. The legacy mapping is built line by line, later lines winning.
    Adding a line [key=value] to the output sets [key] to [value], which may
    itself contain [=] signs, and leaves the other keys alone; a line
    without [=] becomes a key with the empty value; the empty output gives
    the mapping with the one empty key. *)
Theorem parse_env_lines_by_line (out key value line : string) :
  parse_env_lines EmptyString = {[ EmptyString := EmptyString ]} /\
  (contains_char "="%char key = false ->
   contains_char newline key = false ->
   contains_char newline value = false ->
   parse_env_lines (out +:+ String newline (key +:+ String "="%char value))
     = <[key := value]> (parse_env_lines out)) /\
  (contains_char "="%char line = false ->
   contains_char newline line = false ->
   parse_env_lines (out +:+ String newline line)
     = <[line := EmptyString]> (parse_env_lines out)).
Proof.
  split; [reflexivity|]. split.
  - intros Heq Hk Hv.
    rewrite parse_env_lines_last_line.
    + now rewrite (partition_on_sep _ _ _ Heq).
    + rewrite contains_char_app. simpl. rewrite Hk, Hv. reflexivity.
  - intros Heq Hnl.
    rewrite (parse_env_lines_last_line _ _ Hnl).
    now rewrite (partition_on_no_sep _ _ Heq).
Qed.

Lemma parse_env_lines_by_line_witness :
  let out := "PATH=/usr/bin" +:+ String newline "network=old-vpc" in
  parse_env_lines (out +:+ String newline "network=a=b") !! "network" = Some "a=b" /\
  parse_env_lines (out +:+ String newline "network=a=b") !! "PATH" = Some "/usr/bin" /\
  parse_env_lines (out +:+ String newline "readonly") !! "readonly" = Some EmptyString.
Proof.
  intros out.
  destruct (parse_env_lines_by_line out "network" "a=b" "readonly")
    as (_ & Hset & Hbare).
  split; [|split].
  - change ("network=a=b") with ("network" +:+ String "="%char "a=b").
    rewrite Hset by reflexivity. apply lookup_insert_eq.
  - change ("network=a=b") with ("network" +:+ String "="%char "a=b").
    rewrite Hset by reflexivity.
    rewrite lookup_insert_ne by discriminate. vm_compute. reflexivity.
  - rewrite Hbare by reflexivity. apply lookup_insert_eq.
Defined.

(** X5. migrate on a stage that detection finds at v1.0, be it a Python
    stage file tagged v1.0 or a legacy script, runs the command that loads
    the old file and, when that command comes back, raises AttributeError
    at the reference to settings.SUBNET_REGION while it builds the default
    context.  Nothing is echoed and no stage file is written: of the state
    only the world and the command trace have changed. *)
Theorem migrate_v1_stage_raises `{P : Platform}
    (stage_name : option string) (s : state) (r : Z * string * string) (w : World) :
  let name := resolve_stage_name stage_name in
  let python := get_stage_file name in
  let bash := legacy_stage_path name in
  let stopped old_filepath : result state unit :=
    Raise (no_attribute "SUBNET_REGION")
          (mkState (fs s) w (echoed s) (trace s ++ [load_call old_filepath]) (invoked s)) in
  (os_path_exists (fs s) python = true ->
   getattr_spec_version (get_stage_object (fs s) name) = STAGE_VERSION_1_0 ->
   execute_command (load_call python) (world s) = Ret r w ->
   migrate stage_name s = stopped python) /\
  (os_path_exists (fs s) python = false ->
   os_path_exists (fs s) bash = true ->
   execute_command (load_call bash) (world s) = Ret r w ->
   migrate stage_name s = stopped bash).
Proof.
  intros name python bash stopped. split.
  - intros Hpy Htag Hrun.
    pose proof (detect_python_file name s Hpy) as Hdet.
    rewrite Htag in Hdet. specialize (Hdet eq_refl).
    exact (migrate_v1_eq stage_name s python r w Hdet Hrun).
  - intros Hpy Hsh Hrun.
    exact (migrate_v1_eq stage_name s bash r w (detect_legacy name s Hpy Hsh) Hrun).
Qed.

Lemma migrate_v1_stage_raises_witness :
  let P := Sim.platform ∅ "pw" in
  let file := "spec_version=v1.0" +:+ String newline "project_id=demo" in
  let tagged :=
    Sim.start ∅ "pw" {[ Sim.stage_file "demo" := file ]} (Sim.fresh_world true) in
  let legacy :=
    Sim.start ∅ "pw" {[ "/crmint/scripts/variables/stages/demo.sh" := "network=old-vpc" ]}
              (Sim.fresh_world true) in
  let error := AttributeError "'module' object has no attribute 'SUBNET_REGION'" in
  @migrate P (Some "demo") tagged
    = Raise error
            (@mkState P (fs tagged) (world tagged) []
               [@load_call P "/crmint/cli/stages/demo.py"] []) /\
  @migrate P (Some "demo") legacy
    = Raise error
            (@mkState P (fs legacy) (world legacy) []
               [@load_call P "/crmint/scripts/variables/stages/demo.sh"] []).
Proof.
  intros P file tagged legacy error. split.
  - destruct (migrate_v1_stage_raises (P := P) (Some "demo") tagged
                (0, EmptyString, EmptyString) (world tagged)) as (Hpython & _).
    apply Hpython; reflexivity.
  - destruct (migrate_v1_stage_raises (P := P) (Some "demo") legacy
                (0, EmptyString, EmptyString) (world legacy)) as (_ & Hbash).
    apply Hbash; reflexivity.
Defined.

(** X6. The default stage context is never built.  Of the attributes of
    settings that the dict call of _default_stage_context reads, six are
    bound nowhere in settings.py: SUBNET_REGION, CONNECTOR_SUBNET,
    CONNECTOR_MIN_INSTANCES, CONNECTOR_MAX_INSTANCES, CONNECTOR_MACHINE_TYPE
    and NETWORK_PROJECT.  The arguments are evaluated in order, so for every
    stage name, environment and state the call raises AttributeError at the
    first of the six and changes nothing; and so does _create_stage_file
    when it is given no context, before it opens the file. *)
Theorem default_stage_context_raises `{P : Platform} (stage_name : string) (s : state) :
  missing_settings settings_assignments (default_stage_args stage_name)
    = [ "SUBNET_REGION"; "CONNECTOR_SUBNET"; "CONNECTOR_MIN_INSTANCES";
        "CONNECTOR_MAX_INSTANCES"; "CONNECTOR_MACHINE_TYPE"; "NETWORK_PROJECT" ] /\
  _default_stage_context stage_name s = Raise (no_attribute "SUBNET_REGION") s /\
  _create_stage_file stage_name None s = Raise (no_attribute "SUBNET_REGION") s.
Proof.
  split; [reflexivity|]. split.
  - apply default_stage_context_stops.
  - apply _create_stage_file_default_stops.
Qed.

(** X7. create never creates a stage file.  On a name that is taken it
    echoes that the name exists and exits with status 1; on a free name it
    raises AttributeError while it builds the default context, before it
    opens the file, and echoes nothing.  So it never returns, and files,
    world and command trace are as before. *)
Theorem create_exits_or_raises `{P : Platform}
    (stage_name : option string) (s : state) :
  let name := resolve_stage_name stage_name in
  create stage_name s
    = (if check_stage_file (fs s) name
       then Exit 1 (set_echoed s (echoed s ++ [already_exists_message]))
       else Raise (no_attribute "SUBNET_REGION") s) /\
  ~ returns (create stage_name s) /\
  fs (result_state (create stage_name s)) = fs s /\
  world (result_state (create stage_name s)) = world s /\
  trace (result_state (create stage_name s)) = trace s.
Proof.
  intros name. split; [apply create_eq|].
  rewrite create_eq. fold name.
  destruct (check_stage_file (fs s) name);
    (split; [intros (a & s' & H); discriminate H | repeat split]).
Qed.

Section MigrateOutcome.
Context `{P : Platform}.

(** a computation that goes on with one that never returns never returns *)
Lemma bind_never_returns {A B} (m : M A) (k : A -> M B) s :
  (forall a s', ~ returns (k a s')) -> ~ returns (bind m k s).
Proof.
  intros Hk (b & s2 & H). unfold bind in H.
  destruct (m s) as [a s1|code s1|e s1]; try discriminate H.
  apply (Hk a s1). now exists b, s2.
Qed.

(** a computation that goes on after an exception has been raised does not
    return *)
Lemma bind_stops {A B} (m : M A) (k : A -> M B) s e s' :
  m s = Raise e s' -> ~ returns (bind m k s).
Proof.
  intros Hm (b & s2 & H). unfold bind in H. rewrite Hm in H. discriminate H.
Qed.

End MigrateOutcome.

(** X9. migrate never returns, whatever the stage and whatever the commands
    do: it exits with status 0 or 1 from its try block, or the loading
    command ends the process, or it gets past the try block and then raises
    AttributeError while it builds the default context. *)
Theorem migrate_never_returns `{P : Platform}
    (stage_name : option string) (s : state) :
  ~ returns (migrate stage_name s).
Proof.
  unfold migrate. apply bind_never_returns. intros old_context s1.
  exact (bind_stops _ _ _ _ _ (default_stage_context_stops _ s1)).
Qed.

(** ** The sub-commands of cloud *)

Section SubCommands.
Context `{P : Platform}.

Lemma _deploy_eq stage_name debug s :
  _deploy stage_name debug s =
  let name := resolve_stage_name stage_name in
  if check_stage_file (fs s) name then
    match get_stage_object (fs s) name with
    | Some stage =>
        bind (run_components deploy_declared (before_hook stage name) debug)
             (fun _ => echo "Done.") s
    | None =>
        Exit 1 (set_echoed s (echoed s ++
                  ["Fix that issue by running: $ crmint cloud setup"]))
    end
  else Raise unpack_none_error
         (set_echoed s (echoed s ++ ["Stage file '" +:+ name +:+ "' not found."])).
Proof.
  unfold _deploy. unfold bind at 1. rewrite fetch_stage_or_default_eq. cbv zeta.
  destruct (check_stage_file _ _); [|reflexivity].
  destruct (get_stage_object _ _); reflexivity.
Qed.

Lemma run_components_app l1 l2 stage debug s :
  run_components (l1 ++ l2) stage debug s =
  bind (run_components l1 stage debug) (fun _ => run_components l2 stage debug) s.
Proof.
  revert s. induction l1 as [|c l1 IH]; intros s; [reflexivity|].
  simpl app. rewrite !run_components_cons. unfold bind at 1.
  rewrite run_components_cons.
  destruct (run_component c stage debug _) as [[] s1|code s1|e s1]; try reflexivity.
  rewrite IH. reflexivity.
Qed.

End SubCommands.

(** X10. begin stops in its first step, the helper _create: after the
    starting message, and the message that the name exists when it does,
    building the default context raises AttributeError at the reference to
    settings.SUBNET_REGION.  So begin never gets to _setup or _deploy: it
    never returns, writes no file, runs no command and invokes no step. *)
Theorem begin_raises_in_create `{P : Platform}
    (stage_name : option string) (debug : bool) (s : state) :
  let name := resolve_stage_name stage_name in
  let said :=
    ">>>> Starting" ::
    (if check_stage_file (fs s) name then [already_exists_message] else []) in
  begin stage_name debug s
    = Raise (no_attribute "SUBNET_REGION")
            (mkState (fs s) (world s) (echoed s ++ said) (trace s) (invoked s)).
Proof.
  intros name said. apply begin_stops_in_create.
Qed.

(** X11. On a name without a stage file, deploy and the two helpers of
    begin stop like setup does: the lookup echoes that the stage file was
    not found, and unpacking its result raises TypeError.  Their own hints
    for that case are never echoed, and no step is invoked. *)
Theorem missing_stage_raises_in_deploy `{P : Platform}
    (stage_name : option string) (debug skip_backends skip_frontend : bool) (s : state) :
  let name := resolve_stage_name stage_name in
  let not_found := "Stage file '" +:+ name +:+ "' not found." in
  check_stage_file (fs s) name = false ->
  deploy stage_name debug skip_backends skip_frontend s
    = Raise unpack_none_error (set_echoed s (echoed s ++ [">>>> Deploy"; not_found])) /\
  _deploy stage_name debug s
    = Raise unpack_none_error (set_echoed s (echoed s ++ [not_found])) /\
  _setup stage_name debug s
    = Raise unpack_none_error (set_echoed s (echoed s ++ [not_found])).
Proof.
  intros name not_found Hex. split; [|split].
  - rewrite deploy_eq. cbv zeta. fold name. rewrite Hex.
    unfold set_echoed. simpl. rewrite <- app_assoc. reflexivity.
  - rewrite _deploy_eq. cbv zeta. fold name. rewrite Hex. reflexivity.
  - rewrite _setup_eq. cbv zeta. fold name. rewrite Hex. reflexivity.
Qed.

Lemma missing_stage_raises_in_deploy_witness :
  let s := Sim.start ∅ "pw" ∅ (Sim.fresh_world true) in
  @deploy (Sim.platform ∅ "pw") (Some "demo") false false false s
    = Raise (TypeError "'NoneType' object is not iterable")
            (set_echoed s [">>>> Deploy"; "Stage file 'demo' not found."]).
Proof.
  intros s.
  apply (missing_stage_raises_in_deploy (P := Sim.platform ∅ "pw")
           (Some "demo") false false false s).
  reflexivity.
Defined.

Section Returns.
Context `{P : Platform}.








End Returns.


Section SetupReturns.
Context `{P : Platform}.



End SetupReturns.


Lemma sim_executor_returns env password :
  @executor_returns (Sim.platform env password).
Proof.
  intros c w. simpl. unfold Sim.run.
  repeat match goal with
         | |- context [if ?b then _ else _] => destruct b
         end; eexists _, _; reflexivity.
Qed.


(** X13. A pipeline stops at the first step that ends the process: when the
    steps before it have returned and the step exits with a status, the
    pipeline exits with that status, the step is the last one invoked, and
    the steps after it are not invoked. *)
Theorem pipeline_stops_at_failing_step `{P : Platform}
    (before after : list component) (c : component) (stage : Stage) (debug : bool)
    (s s1 s2 : state) (code : Z) :
  run_components before stage debug s = Ret tt s1 ->
  run_component c stage debug
    (mkState (fs s1) (world s1) (echoed s1) (trace s1) (invoked s1 ++ [c]))
    = Exit code s2 ->
  run_components (before ++ c :: after) stage debug s = Exit code s2 /\
  invoked s2 = (invoked s ++ before ++ [c])%list.
Proof.
  intros Hbefore Hc. split.
  - rewrite run_components_app. unfold bind. rewrite Hbefore.
    rewrite run_components_cons, Hc. reflexivity.
  - pose proof (keeps_run_component c stage debug
                  (mkState (fs s1) (world s1) (echoed s1) (trace s1) (invoked s1 ++ [c])))
      as Hk.
    rewrite Hc in Hk. simpl in Hk. rewrite Hk.
    destruct (run_components_invoked before stage debug s) as (ran & Hinv & _ & Hall).
    rewrite Hbefore in Hinv. simpl in Hinv.
    rewrite Hinv, (Hall s1 Hbefore), <- app_assoc. reflexivity.
Qed.

Lemma pipeline_stops_at_failing_step_witness :
  let P := Outage.platform "Create the VPC" in
  let st := Sim.demo_stage None in
  let s := Outage.start "Create the VPC" ∅ (Sim.fresh_world true) in
  invoked (result_state (@run_components P setup_components st false s))
    = [downgrade_app_engine_python; activate_services; create_vpc] /\
  exists s2, @run_components P setup_components st false s = Exit 1 s2.
Proof.
  intros P st s.
  set (s1 := result_state
               (@run_components P [downgrade_app_engine_python; activate_services]
                  st false s)).
  set (s2 := result_state
               (@run_component P create_vpc st false
                  (mkState (fs s1) (world s1) (echoed s1) (trace s1)
                           (invoked s1 ++ [create_vpc])))).
  destruct (pipeline_stops_at_failing_step (P := P)
              [downgrade_app_engine_python; activate_services]
              [create_subnet; create_vpc_connector; create_appengine;
               create_service_account_key_if_needed; grant_required_permissions;
               create_mysql_instance_if_needed; create_mysql_user_if_needed;
               create_mysql_database_if_needed; download_config_files]
              create_vpc st false s s1 s2 1) as (Hrun & Hinv).
  - reflexivity.
  - reflexivity.
  - change setup_components
      with ([downgrade_app_engine_python; activate_services] ++
            create_vpc ::
            [create_subnet; create_vpc_connector; create_appengine;
             create_service_account_key_if_needed; grant_required_permissions;
             create_mysql_instance_if_needed; create_mysql_user_if_needed;
             create_mysql_database_if_needed; download_config_files])%list.
    rewrite Hrun. split; [exact Hinv | eexists; reflexivity].
Defined.

(** ** What the setup steps run *)

Section StepCalls.
Context `{P : Platform}.

Lemma calls_since_refl (s : state) : calls_since s s = [].
Proof. unfold calls_since. apply drop_all. Qed.

(** one call of [exec] that comes back *)
Lemma exec_returns (Hret : executor_returns) c s :
  exists r w, execute_command c (world s) = Ret r w /\
    exec c s = Ret r (mkState (fs s) w (echoed s) (trace s ++ [c]) (invoked s)).
Proof.
  destruct (Hret c (world s)) as (r & w & He).
  exists r, w. split; [exact He | now apply exec_Ret].
Qed.

End StepCalls.

(** X14. A step that checks one resource and creates it (VPC connector, App
    Engine, MySQL instance, MySQL database) makes its probe and then, only
    when the probe's status is not 0, its one creation command; any status
    other than 0 counts as absent.  It returns whenever the commands do. *)
Theorem check_then_create_calls `{P : Platform}
    (c : component) (probe create : Stage -> bool -> ExecCall)
    (stage : Stage) (debug : bool) (s : state) :
  executor_returns ->
  probe_of c = Some probe ->
  create_call_of c = Some create ->
  exists r w s',
    execute_command (probe stage debug) (world s) = Ret r w /\
    run_component c stage debug s = Ret tt s' /\
    calls_since s s' =
      probe stage debug :: (if status_ok r then [] else [create stage debug]).
Proof.
  intros Hret Hp Hc.
  destruct (Hret (probe stage debug) (world s)) as (r & w & He).
  exists r, w.
  destruct c; simpl in Hp, Hc; try discriminate Hp; try discriminate Hc;
    injection Hp as <-; injection Hc as <-;
    unfold run_component, run_create_vpc_connector, run_create_appengine,
      run_create_mysql_instance_if_needed, run_create_mysql_database_if_needed,
      _check_if_vpc_connector_exists, _check_if_appengine_instance_exists,
      _check_if_mysql_instance_exists, _check_if_mysql_database_exists,
      bind, exec;
    rewrite He; unfold ret; cbn [world fs echoed trace invoked];
    (destruct (status_ok r);
     [ eexists; split; [reflexivity|]; split; [reflexivity|];
       now apply calls_since_app
     | cbv beta iota zeta; cbn [world fs echoed trace invoked];
       match goal with
       | |- context [execute_command ?call w] =>
           destruct (Hret call w) as (r2 & w2 & He2); rewrite He2
       end;
       eexists; split; [reflexivity|]; split; [reflexivity|];
       apply calls_since_app; cbn [trace]; now rewrite <- app_assoc ]).
Qed.

Lemma check_then_create_calls_witness :
  let P := Sim.platform ∅ "pw" in
  let st := Sim.demo_stage None in
  let s := Sim.start ∅ "pw" ∅ (Sim.fresh_world true) in
  exists s',
    @run_component P create_mysql_database_if_needed st false s = Ret tt s' /\
    calls_since s s' =
      [ mysql_database_probe st false;
        action_call "Creating MySQL database" (mysql_database_create_command st) false ].
Proof.
  intros P st s.
  destruct (check_then_create_calls (P := P) create_mysql_database_if_needed
              mysql_database_probe
              (fun stage debug =>
                 action_call "Creating MySQL database"
                             (mysql_database_create_command stage) debug)
              st false s (sim_executor_returns ∅ "pw") eq_refl eq_refl)
    as (r & w & s' & He & Hrun & Hcalls).
  exists s'. split; [exact Hrun|].
  etransitivity; [exact Hcalls|].
  assert (r = (1, EmptyString, EmptyString)) as -> by (vm_compute in He; congruence).
  reflexivity.
Defined.

(** X15. The subnet step always makes its two probes, first for the app
    subnet and then for the connector subnet, and after each probe whose
    status is not 0 the creation of that subnet.  The two subnets are
    handled independently: the connector probe is made in the world the
    first half leaves, whatever the app probe said, and the step runs as
    many creation commands as probes came back with a status other
    than 0. *)
Theorem create_subnet_calls `{P : Platform} (stage : Stage) (debug : bool) (s : state) :
  executor_returns ->
  let create_app :=
    action_call "Create the VPC App Subnet" (subnet_create_command stage) debug in
  let create_connector :=
    action_call "Create the VPC Connector Subnet"
                (connector_subnet_create_command stage) debug in
  exists r1 w1 r2 w2 s',
    execute_command (subnet_probe stage debug) (world s) = Ret r1 w1 /\
    execute_command (connector_subnet_probe stage debug)
                    (if status_ok r1 then w1 else world_after create_app w1)
      = Ret r2 w2 /\
    run_component create_subnet stage debug s = Ret tt s' /\
    calls_since s s' =
      (subnet_probe stage debug ::
       (if status_ok r1 then [] else [create_app]) ++
       connector_subnet_probe stage debug ::
       (if status_ok r2 then [] else [create_connector]))%list /\
    probes_in (calls_since s s') = 2%nat /\
    actions_in (calls_since s s')
      = ((if status_ok r1 then 0 else 1) + (if status_ok r2 then 0 else 1))%nat.
Proof.
  intros Hret create_app create_connector. subst create_app create_connector.
  destruct (Hret (subnet_probe stage debug) (world s)) as (r1 & w1 & He1).
  exists r1, w1.
  unfold run_component, run_create_subnet, _check_if_subnet_exists,
    _check_if_connector_subnet_exists, bind, exec, echo, world_after.
  rewrite He1. unfold ret. cbn [world fs echoed trace invoked].
  destruct (status_ok r1); cbv beta iota zeta; cbn [world fs echoed trace invoked].
  - destruct (Hret (connector_subnet_probe stage debug) w1) as (r2 & w2 & He2).
    exists r2, w2. rewrite He2. cbv beta iota zeta. cbn [world fs echoed trace invoked].
    destruct (status_ok r2); cbv beta iota zeta; cbn [world fs echoed trace invoked].
    + eexists. split; [reflexivity|]. split; [reflexivity|]. split; [reflexivity|].
      rewrite (calls_since_app s _ [subnet_probe stage debug;
                                    connector_subnet_probe stage debug])
        by (cbn [trace]; now rewrite <- app_assoc).
      repeat split.
    + match goal with
      | |- context [execute_command ?call w2] =>
          destruct (Hret call w2) as (r3 & w3 & He3); rewrite He3
      end.
      eexists. split; [reflexivity|]. split; [reflexivity|]. split; [reflexivity|].
      rewrite (calls_since_app s _
                 [subnet_probe stage debug; connector_subnet_probe stage debug;
                  action_call "Create the VPC Connector Subnet"
                              (connector_subnet_create_command stage) debug])
        by (cbn [trace]; now rewrite <- !app_assoc).
      repeat split.
  - match goal with
    | |- context [execute_command ?call w1] =>
        destruct (Hret call w1) as (r1' & w1' & He1'); rewrite He1'
    end.
    cbv beta iota zeta. cbn [world fs echoed trace invoked result_state].
    destruct (Hret (connector_subnet_probe stage debug) w1') as (r2 & w2 & He2).
    exists r2, w2. rewrite He2. cbv beta iota zeta. cbn [world fs echoed trace invoked].
    destruct (status_ok r2); cbv beta iota zeta; cbn [world fs echoed trace invoked].
    + eexists. split; [reflexivity|]. split; [reflexivity|]. split; [reflexivity|].
      rewrite (calls_since_app s _
                 [subnet_probe stage debug;
                  action_call "Create the VPC App Subnet"
                              (subnet_create_command stage) debug;
                  connector_subnet_probe stage debug])
        by (cbn [trace]; now rewrite <- !app_assoc).
      repeat split.
    + match goal with
      | |- context [execute_command ?call w2] =>
          destruct (Hret call w2) as (r3 & w3 & He3); rewrite He3
      end.
      eexists. split; [reflexivity|]. split; [reflexivity|]. split; [reflexivity|].
      rewrite (calls_since_app s _
                 [subnet_probe stage debug;
                  action_call "Create the VPC App Subnet"
                              (subnet_create_command stage) debug;
                  connector_subnet_probe stage debug;
                  action_call "Create the VPC Connector Subnet"
                              (connector_subnet_create_command stage) debug])
        by (cbn [trace]; now rewrite <- !app_assoc).
      repeat split.
Qed.

Lemma create_subnet_calls_witness :
  let P := Sim.platform ∅ "pw" in
  let st := Sim.demo_stage None in
  let s := Sim.start ∅ "pw" ∅
             (Sim.mkWorld true [subnet_create_command st] EmptyString) in
  exists s',
    @run_component P create_subnet st false s = Ret tt s' /\
    calls_since s s' =
      [ subnet_probe st false;
        connector_subnet_probe st false;
        action_call "Create the VPC Connector Subnet"
                    (connector_subnet_create_command st) false ] /\
    actions_in (calls_since s s') = 1%nat.
Proof.
  intros P st s.
  destruct (create_subnet_calls (P := P) st false s (sim_executor_returns ∅ "pw"))
    as (r1 & w1 & r2 & w2 & s' & He1 & He2 & Hrun & Hcalls & _ & Hactions).
  assert (r1 = (0, EmptyString, EmptyString) /\ w1 = world s) as [-> ->]
    by (vm_compute in He1; injection He1 as <- <-; split; reflexivity).
  assert (r2 = (1, EmptyString, EmptyString)) as ->
    by (vm_compute in He2; congruence).
  exists s'. split; [exact Hrun|]. split; [exact Hcalls | exact Hactions].
Defined.

(** X16. The MySQL-user step always runs two commands when they come back:
    its probe, and then one sql-users command, which is set-password when
    the probe's status is 0 and create otherwise.  Only in the first case
    does it echo that the user exists. *)
Theorem create_mysql_user_calls `{P : Platform}
    (stage : Stage) (debug : bool) (s : state) :
  executor_returns ->
  exists r w s',
    execute_command (mysql_user_probe stage debug) (world s) = Ret r w /\
    run_component create_mysql_user_if_needed stage debug s = Ret tt s' /\
    calls_since s s' =
      [ mysql_user_probe stage debug;
        if status_ok r then set_password_call stage debug
        else action_call "Creating MySQL user"
                         (mysql_users_command stage "create") debug ] /\
    echoed s' =
      (echoed s ++ (if status_ok r then ["     MySQL user already exists."] else []))%list.
Proof.
  intros Hret.
  destruct (Hret (mysql_user_probe stage debug) (world s)) as (r & w & He).
  exists r, w.
  unfold run_component, run_create_mysql_user_if_needed, _check_if_mysql_user_exists,
    bind, exec, echo.
  rewrite He. unfold ret. cbn [world fs echoed trace invoked].
  destruct (status_ok r); cbv beta iota zeta; cbn [world fs echoed trace invoked fst snd];
    match goal with
    | |- context [execute_command ?call w] =>
        destruct (Hret call w) as (r2 & w2 & He2); rewrite He2
    end;
    (eexists; split; [reflexivity|]; split; [reflexivity|]; split;
     [ apply calls_since_app; cbn [trace]; now rewrite <- app_assoc
     | cbn [echoed]; now rewrite ?app_nil_r ]).
Qed.

Lemma create_mysql_user_calls_witness :
  let P := Sim.platform ∅ "pw" in
  let st := Sim.demo_stage None in
  let s := Sim.start ∅ "pw" ∅ (Sim.fresh_world true) in
  exists s',
    @run_component P create_mysql_user_if_needed st false s = Ret tt s' /\
    calls_since s s' =
      [ mysql_user_probe st false;
        action_call "Creating MySQL user" (mysql_users_command st "create") false ].
Proof.
  intros P st s.
  destruct (create_mysql_user_calls (P := P) st false s (sim_executor_returns ∅ "pw"))
    as (r & w & s' & He & Hrun & Hcalls & _).
  exists s'. split; [exact Hrun|].
  etransitivity; [exact Hcalls|].
  assert (r = (1, EmptyString, EmptyString)) as -> by (vm_compute in He; congruence).
  reflexivity.
Defined.

(** X17. The VPC step makes its probe and stops there when the status is 0.
    Otherwise it creates the network, allocates the address range, probes
    for the peering in the world these two commands leave, and then updates
    the peering when that probe's status is 0 and connects it when it is
    not: four more commands, in that order. *)
Theorem create_vpc_calls `{P : Platform} (stage : Stage) (debug : bool) (s : state) :
  executor_returns ->
  let create_network := action_call "Create the VPC" (vpc_create_command stage) debug in
  let allocate :=
    action_call "Allocating an IP address range" (addresses_create_command stage) debug in
  exists r w s',
    execute_command (vpc_probe stage debug) (world s) = Ret r w /\
    run_component create_vpc stage debug s = Ret tt s' /\
    if status_ok r then calls_since s s' = [vpc_probe stage debug]
    else
      exists rp wp,
        execute_command (peering_probe stage debug)
                        (world_after allocate (world_after create_network w))
          = Ret rp wp /\
        calls_since s s' =
          [ vpc_probe stage debug;
            create_network;
            allocate;
            peering_probe stage debug;
            action_call "Creating or updating the private connection"
                        (if status_ok rp then peering_update_command stage
                         else peering_connect_command stage) debug ].
Proof.
  intros Hret create_network allocate. subst create_network allocate.
  destruct (Hret (vpc_probe stage debug) (world s)) as (r & w & He).
  exists r, w.
  unfold run_component, run_create_vpc, _check_if_vpc_exists, _check_if_peering_exists,
    bind, exec, echo, world_after.
  rewrite He. unfold ret. cbn [world fs echoed trace invoked].
  destruct (status_ok r); cbv beta iota zeta; cbn [world fs echoed trace invoked].
  - eexists. split; [reflexivity|]. split; [reflexivity|]. now apply calls_since_app.
  - match goal with
    | |- context [execute_command ?call w] =>
        destruct (Hret call w) as (r1 & w1 & He1); rewrite He1
    end.
    cbv beta iota zeta. cbn [world fs echoed trace invoked result_state].
    match goal with
    | |- context [execute_command ?call w1] =>
        destruct (Hret call w1) as (r2 & w2 & He2); rewrite He2
    end.
    cbv beta iota zeta. cbn [world fs echoed trace invoked result_state].
    destruct (Hret (peering_probe stage debug) w2) as (rp & w3 & He3).
    rewrite He3.
    cbv beta iota zeta. cbn [world fs echoed trace invoked].
    match goal with
    | |- context [execute_command ?call w3] =>
        destruct (Hret call w3) as (r4 & w4 & He4); rewrite He4
    end.
    eexists. split; [reflexivity|]. split; [reflexivity|].
    exists rp, w3. split; [reflexivity|].
    apply calls_since_app. cbn [trace]. now rewrite <- !app_assoc.
Qed.

Lemma create_vpc_calls_witness :
  let P := Sim.platform ∅ "pw" in
  let st := Sim.demo_stage None in
  let s := Sim.start ∅ "pw" ∅ (Sim.fresh_world true) in
  exists s',
    @run_component P create_vpc st false s = Ret tt s' /\
    calls_since s s' =
      [ vpc_probe st false;
        action_call "Create the VPC" (vpc_create_command st) false;
        action_call "Allocating an IP address range" (addresses_create_command st) false;
        peering_probe st false;
        action_call "Creating or updating the private connection"
                    (peering_connect_command st) false ].
Proof.
  intros P st s.
  destruct (create_vpc_calls (P := P) st false s (sim_executor_returns ∅ "pw"))
    as (r & w & s' & He & Hrun & Hcalls).
  assert (r = (1, EmptyString, EmptyString) /\ w = world s) as [-> ->]
    by (vm_compute in He; injection He as <- <-; split; reflexivity).
  cbv beta iota in Hcalls.
  change (status_ok (1, EmptyString, EmptyString)) with false in Hcalls.
  cbv beta iota in Hcalls.
  destruct Hcalls as (rp & wp & Hp & Hcalls).
  assert (rp = (1, EmptyString, EmptyString)) as ->
    by (vm_compute in Hp; congruence).
  exists s'. split; [exact Hrun | exact Hcalls].
Defined.

(** ** Listing the stages *)

Lemma endswith_nil suffix :
  endswith suffix EmptyString = String.eqb EmptyString suffix.
Proof. simpl. apply orb_false_r. Qed.

Lemma endswith_cons suffix c r :
  endswith suffix (String c r) = String.eqb (String c r) suffix || endswith suffix r.
Proof. reflexivity. Qed.

(** [endswith] holds exactly of the strings that end with the suffix *)
Lemma endswith_spec suffix s :
  endswith suffix s = true <-> exists p, s = p +:+ suffix.
Proof.
  split.
  - induction s as [|c r IH].
    + rewrite endswith_nil. intros H. apply String.eqb_eq in H.
      exists EmptyString. exact H.
    + rewrite endswith_cons. intros H. apply orb_true_iff in H as [H|H].
      * apply String.eqb_eq in H. exists EmptyString. exact H.
      * destruct (IH H) as [p ->]. now exists (String c p).
  - intros [p ->]. induction p as [|c p IH].
    + change (EmptyString +:+ suffix) with suffix.
      destruct suffix as [|d suffix].
      * reflexivity.
      * rewrite endswith_cons, String.eqb_refl. reflexivity.
    + change (String c p +:+ suffix) with (String c (p +:+ suffix)).
      rewrite endswith_cons, IH. apply orb_true_r.
Qed.

Lemma string_length_app a b :
  String.length (a +:+ b) = (String.length a + String.length b)%nat.
Proof. induction a as [|c a IH]; simpl; [reflexivity | now rewrite IH]. Qed.

Lemma substring_whole_prefix a b :
  substring 0 (String.length a) (a +:+ b) = a.
Proof.
  induction a as [|c a IH]; simpl; [now destruct b | now rewrite IH].
Qed.

Lemma drop_last_three_py n : drop_last_three (n +:+ ".py") = n.
Proof.
  unfold drop_last_three. rewrite string_length_app. simpl.
  replace (String.length n + 3 - 3)%nat with (String.length n) by lia.
  apply substring_whole_prefix.
Qed.

Lemma last_char_app a b :
  b <> EmptyString -> last_char (a +:+ b) = last_char b.
Proof.
  intros Hb. induction a as [|c a IH]; [reflexivity|].
  simpl. rewrite <- IH.
  destruct (a +:+ b) eqn:E; [|reflexivity].
  destruct a; simpl in E; [contradiction | discriminate].
Qed.

Lemma py_file_not_ignored n :
  n <> "__init__" -> _ignore_stage_file (n +:+ ".py") = false.
Proof.
  intros Hn. unfold _ignore_stage_file. simpl existsb.
  rewrite !orb_false_r. apply orb_false_iff. split; [|apply orb_false_iff; split].
  - apply String.eqb_neq. intros H. apply Hn.
    rewrite <- (drop_last_three_py n), H. reflexivity.
  - apply not_true_iff_false. intros H. apply endswith_spec in H as [p Hp].
    assert (last_char (n +:+ ".py") = last_char (p +:+ ".pyc")) as Hl by now rewrite Hp.
    rewrite !last_char_app in Hl by discriminate. discriminate Hl.
  - apply not_true_iff_false. intros H. apply endswith_spec in H as [p Hp].
    assert (last_char (n +:+ ".py") = last_char (p +:+ ".example")) as Hl
      by now rewrite Hp.
    rewrite !last_char_app in Hl by discriminate. discriminate Hl.
Qed.

(** X19. Listing shows the stages under the names they were created with:
    for a directory holding the stage files of the given names, each name
    followed by the extension py, list echoes exactly these names, in the
    order of the directory listing, as long as none of them is __init__. *)
Theorem list_stages_echoes_stage_names `{P : Platform}
    (names : list string) (s : state) :
  Forall (fun n => n <> "__init__") names ->
  list_stages (map (fun n => n +:+ ".py") names) s
    = Ret tt (set_echoed s (echoed s ++ names)).
Proof.
  intros Hall. revert s.
  induction Hall as [|n names Hn _ IH]; intros s.
  - simpl. unfold ret, set_echoed. rewrite app_nil_r. now destruct s.
  - simpl. rewrite (py_file_not_ignored n Hn). simpl.
    unfold bind at 1. unfold echo at 1. rewrite IH.
    unfold set_echoed. simpl. rewrite drop_last_three_py, <- app_assoc. reflexivity.
Qed.

Lemma list_stages_echoes_stage_names_witness :
  let s := Sim.start ∅ "pw" ∅ (Sim.fresh_world true) in
  @list_stages (Sim.platform ∅ "pw") ["demo.py"; "production.py"] s
    = Ret tt (set_echoed s ["demo"; "production"]).
Proof.
  intros s.
  apply (list_stages_echoes_stage_names (P := Sim.platform ∅ "pw")
           ["demo"; "production"] s).
  repeat constructor; discriminate.
Defined.

(** X20. list echoes, in the order of the directory listing, every file
    name that is not ignored, without its last three characters, whatever
    they are, and returns.  Ignored are exactly the file __init__.py and
    the files whose name ends in .pyc or .example, so a stage called
    __init__ is never listed; a name of three characters or fewer is echoed
    as the empty string. *)
Theorem list_stages_ignores_and_cuts `{P : Platform}
    (listing : list string) (s : state) :
  list_stages listing s
    = Ret tt (set_echoed s
                (echoed s ++
                 map drop_last_three
                     (List.filter (fun file_name => negb (_ignore_stage_file file_name))
                                  listing))) /\
  (forall file_name,
     _ignore_stage_file file_name = true <->
     file_name = "__init__.py" \/
     (exists p, file_name = p +:+ ".pyc") \/
     (exists p, file_name = p +:+ ".example")) /\
  (forall file_name,
     (String.length file_name <= 3)%nat -> drop_last_three file_name = EmptyString).
Proof.
  split; [|split].
  - revert s. induction listing as [|file_name rest IH]; intros s.
    + cbn [list_stages List.filter map]. unfold ret.
      now rewrite set_echoed_same.
    + cbn [list_stages List.filter]. unfold bind at 1.
      destruct (_ignore_stage_file file_name); cbn [negb].
      * unfold ret at 1. apply IH.
      * unfold echo at 1. rewrite IH. cbn [map].
        unfold set_echoed. cbn [fs world echoed trace invoked].
        now rewrite <- app_assoc.
  - intros file_name. unfold _ignore_stage_file. simpl existsb. rewrite !orb_false_r.
    rewrite !orb_true_iff, String.eqb_eq, !endswith_spec. reflexivity.
  - intros file_name Hlen. unfold drop_last_three.
    replace (String.length file_name - 3)%nat with 0%nat by lia.
    now destruct file_name.
Qed.

Lemma list_stages_ignores_and_cuts_witness :
  let P := Sim.platform ∅ "pw" in
  let s := Sim.start ∅ "pw" ∅ (Sim.fresh_world true) in
  let listing :=
    ["__init__.py"; "demo.py"; "demo.pyc"; "stage.py.example"; "ab"; "notes.txt"] in
  @list_stages P listing s = Ret tt (set_echoed s ["demo"; EmptyString; "notes."]) /\
  _ignore_stage_file "stage.py.example" = true /\
  drop_last_three "ab" = EmptyString.
Proof.
  intros P s listing.
  destruct (list_stages_ignores_and_cuts (P := P) listing s)
    as (Hrun & Hignored & Hcut).
  split; [|split].
  - rewrite Hrun. reflexivity.
  - apply Hignored. right. right. exists "stage.py". reflexivity.
  - apply Hcut. simpl. lia.
Defined.

(** ** Settings *)

(** X21. Setting PROJECT and REGION alone places every resource: with just
    these two variables in the environment, the settings hold the project
    under PROJECT, DATABASE_PROJECT, GAE_PROJECT, NETWORK_SERVICE_PROJECT
    and NETWORK_HOST_PROJECT, the region under REGION, DATABASE_REGION and
    GAE_REGION, the subnet is named after the region, the database instance
    is named like the database, and the title of the application is the
    default stage name with its dashes turned into spaces and each word
    capitalised. *)
Theorem project_and_region_place_the_defaults `{P : Platform}
    (project region : string) :
  environ = {[ "PROJECT" := project; "REGION" := region ]} ->
  PROJECT = project /\
  DATABASE_PROJECT = project /\
  GAE_PROJECT = project /\
  NETWORK_SERVICE_PROJECT = project /\
  NETWORK_HOST_PROJECT = project /\
  REGION = region /\
  DATABASE_REGION = region /\
  GAE_REGION = region /\
  SUBNET = "crmint-" +:+ region +:+ "-subnet" /\
  DATABASE_NAME = "crmintapp-db" /\
  DATABASE_INSTANCE_NAME = "crmintapp-db" /\
  GAE_APP_TITLE = title (String.concat " " (split_on "-"%char get_default_stage_name)).
Proof.
  intros Henv.
  assert (forall name dflt,
            name <> "PROJECT" -> name <> "REGION" -> getenv name dflt = dflt) as Hd.
  { intros name dflt H1 H2. unfold getenv. rewrite Henv.
    rewrite lookup_insert_ne by congruence.
    rewrite lookup_singleton_ne by congruence. reflexivity. }
  assert (PROJECT = project) as HP
    by (unfold PROJECT, getenv; rewrite Henv; reflexivity).
  assert (REGION = region) as HR
    by (unfold REGION, getenv; rewrite Henv; reflexivity).
  assert (DATABASE_NAME = "crmintapp-db") as HDN
    by (unfold DATABASE_NAME; now rewrite Hd by discriminate).
  repeat split.
  - exact HP.
  - unfold DATABASE_PROJECT. rewrite Hd by discriminate. exact HP.
  - unfold GAE_PROJECT. rewrite Hd by discriminate. exact HP.
  - unfold NETWORK_SERVICE_PROJECT. rewrite Hd by discriminate. exact HP.
  - unfold NETWORK_HOST_PROJECT. rewrite Hd by discriminate. exact HP.
  - exact HR.
  - unfold DATABASE_REGION. rewrite Hd by discriminate. exact HR.
  - unfold GAE_REGION. rewrite Hd by discriminate. exact HR.
  - unfold SUBNET. rewrite Hd by discriminate. now rewrite HR.
  - exact HDN.
  - unfold DATABASE_INSTANCE_NAME. rewrite Hd by discriminate. exact HDN.
  - unfold GAE_APP_TITLE. now rewrite Hd by discriminate.
Qed.

Lemma project_and_region_place_the_defaults_witness :
  let P := Sim.platform {[ "PROJECT" := "shop"; "REGION" := "europe-west1" ]} "pw" in
  @SUBNET P = "crmint-europe-west1-subnet" /\
  @GAE_PROJECT P = "shop" /\
  @GAE_APP_TITLE P = "Demo" /\
  title (String.concat " " (split_on "-"%char "crmint-demo-stage")) = "Crmint Demo Stage".
Proof.
  intros P.
  destruct (project_and_region_place_the_defaults (P := P)
              "shop" "europe-west1" eq_refl)
    as (_ & _ & Hgae & _ & _ & _ & _ & _ & Hsubnet & _ & _ & Htitle).
  split; [exact Hsubnet|]. split; [exact Hgae|].
  split; [rewrite Htitle|]; reflexivity.
Defined.
